(** * amazon-transcribe-streaming-sdk: response and event deserialisation

    A shallow embedding of [amazon_transcribe/deserialize.py] and of the
    [AudioEventSerializer] of [amazon_transcribe/serialize.py] and
    [transcribe/serialize.py].

    Python values that come out of [json.loads] are the inductive [pyobj];
    a call that may raise returns a [result]; [json.loads] itself belongs to
    the Python standard library and is a section variable of the parsers,
    with a reference decoder [json.loads] for ASCII texts to run them. *)

From Stdlib Require Import ZArith List Bool Lia.
From Stdlib.Strings Require Import Ascii String Byte.
From stdpp Require Import base option list strings gmap.

Set Default Proof Using "Type".
Set Warnings "-register-all".

(** ** Python values *)

Definition bytes := list byte.

(** The value of [json.loads]: [None], [bool], [int], [float], [str], [list]
    and [dict].  A [str] is a [string], one element per character; a [float]
    keeps the text of its literal; a [dict] keeps its items in insertion
    order, as Python does. *)
Inductive pyobj : Type :=
| PyNone
| PyBool (b : bool)
| PyInt (z : Z)
| PyFloat (literal : string)
| PyStr (s : string)
| PyList (l : list pyobj)
| PyDict (d : list (string * pyobj)).

Definition str_chars (s : string) : list pyobj :=
  map (fun c => PyStr (String c EmptyString)) (list_ascii_of_string s).

(** ** Exceptions *)

(** The built-in exception classes that the parsers can meet. *)
Inductive builtin_exception : Type :=
| TypeError
| AttributeError
| KeyError
| IndexError
| ValueError
| JSONDecodeError
| UnicodeDecodeError
| RecursionError.

(** [issubclass(e, ValueError)]: [json.JSONDecodeError] and
    [UnicodeDecodeError] both derive from [ValueError]. *)
Definition is_ValueError (e : builtin_exception) : bool :=
  match e with
  | ValueError | JSONDecodeError | UnicodeDecodeError => true
  | _ => false
  end.

Definition is_JSONDecodeError (e : builtin_exception) : bool :=
  match e with
  | JSONDecodeError => true
  | _ => false
  end.

(** Modelled from the spec: the module [amazon_transcribe.exceptions] is not
    among the sources.  Its classes are the ones [deserialize.py] imports
    from it; the six kinds are built from a message, and
    [UnknownServiceException] from a status code, an error code and a
    message, as [parse_exception] builds them. *)
Inductive ServiceException : Type :=
| BaseServiceException (message : pyobj)
| BadRequestException (message : pyobj)
| ConflictException (message : pyobj)
| InternalFailureException (message : pyobj)
| LimitExceededException (message : pyobj)
| ServiceUnavailableException (message : pyobj)
| SerializationException (message : pyobj)
| UnknownServiceException (status_code : Z) (error_code : string) (message : pyobj).

Inductive exn : Type :=
| Builtin (e : builtin_exception)
| Service (e : ServiceException).

(** ** Calls that may raise *)

Inductive result (A : Type) : Type :=
| Return (a : A)
| Raise (e : exn).
Arguments Return {A} a.
Arguments Raise {A} e.

#[global] Instance result_ret : MRet result := fun A a => Return a.
#[global] Instance result_bind : MBind result := fun A B f m =>
  match m with
  | Return a => f a
  | Raise e => Raise e
  end.
#[global] Instance result_fmap : FMap result := fun A B f m =>
  match m with
  | Return a => Return (f a)
  | Raise e => Raise e
  end.

Definition raise {A} (e : builtin_exception) : result A := Raise (Builtin e).

(** ** Operations of the built-in types *)

Module dict.
Section Dict.
Context {V : Type}.

(** [d.get(k)] on the items of a dict: the first item under [k]. *)
Fixpoint lookup (d : list (string * V)) (k : string) : option V :=
  match d with
  | [] => None
  | (k', v) :: d' => if String.eqb k' k then Some v else lookup d' k
  end.

(** [d[k] = v]: replaces the value of an existing key where it stands,
    appends a new key. *)
Fixpoint setitem (d : list (string * V)) (k : string) (v : V) : list (string * V) :=
  match d with
  | [] => [(k, v)]
  | (k', v') :: d' =>
      if String.eqb k' k then (k', v) :: d' else (k', v') :: setitem d' k v
  end.

Definition keys (d : list (string * V)) : list string := map fst d.
End Dict.
End dict.

(** [k in d] and [d.get(k, default)] for a decoded dict. *)
Definition dict_contains (d : list (string * pyobj)) (k : string) : bool :=
  match dict.lookup d k with
  | Some _ => true
  | None => false
  end.

Definition dict_get (d : list (string * pyobj)) (k : string) (default : pyobj) : pyobj :=
  match dict.lookup d k with
  | Some v => v
  | None => default
  end.

(** [node.get(key)]: only a dict has the method; [None], numbers, strings
    and lists raise [AttributeError]. *)
Definition get (node : pyobj) (key : string) : result pyobj :=
  match node with
  | PyDict d => Return (dict_get d key PyNone)
  | _ => raise AttributeError
  end.

Definition get_default (node : pyobj) (key : string) (default : pyobj) : result pyobj :=
  match node with
  | PyDict d => Return (dict_get d key default)
  | _ => raise AttributeError
  end.

(** [node.items()]. *)
Definition items (node : pyobj) : result (list (string * pyobj)) :=
  match node with
  | PyDict d => Return d
  | _ => raise AttributeError
  end.

(** [iter(node)], as a comprehension [for e in node] runs it: a list gives
    its elements, a dict its keys, a str its characters; the other values are
    not iterable. *)
Definition iter (node : pyobj) : result (list pyobj) :=
  match node with
  | PyList l => Return l
  | PyDict d => Return (map PyStr (dict.keys d))
  | PyStr s => Return (str_chars s)
  | _ => raise TypeError
  end.

(** [[f(e) for e in node]]. *)
Definition comprehension {A} (f : pyobj -> result A) (node : pyobj) : result (list A) :=
  l ← iter node; mapM f l.

(** [needle in haystack] for two strings. *)
Fixpoint is_prefix (p s : string) : bool :=
  match p, s with
  | EmptyString, _ => true
  | String a p', String b s' => Ascii.eqb a b && is_prefix p' s'
  | String _ _, EmptyString => false
  end.

Fixpoint is_substring (p s : string) : bool :=
  is_prefix p s ||
  match s with
  | EmptyString => false
  | String _ s' => is_substring p s'
  end.

Definition str_eq (o : pyobj) (k : string) : bool :=
  match o with
  | PyStr s => String.eqb s k
  | _ => false
  end.

(** [key in node] for a str [key]. *)
Definition contains (node : pyobj) (key : string) : result bool :=
  match node with
  | PyDict d => Return (dict_contains d key)
  | PyList l => Return (existsb (fun e => str_eq e key) l)
  | PyStr s => Return (is_substring key s)
  | _ => raise TypeError
  end.

(** [node[key]] for a str [key]: a dict looks the key up; lists and strings
    take integer indices only; the other values are not subscriptable. *)
Definition getitem (node : pyobj) (key : string) : result pyobj :=
  match node with
  | PyDict d =>
      match dict.lookup d key with
      | Some v => Return v
      | None => raise KeyError
      end
  | _ => raise TypeError
  end.

(** ** A reference decoder for [json.loads]

    [json.loads] is the Python standard library's.  The parsers below take
    it as a variable; this decoder stands for it where a parser is run on a
    concrete payload.  It follows [json.decoder] and [json.scanner] on texts
    made of the bytes 0x01 to 0x7F with no [\u] escape: objects, arrays,
    strings with the one-letter escapes, numbers, [true], [false], [null]
    and the three constants [NaN], [Infinity] and [-Infinity]; a text of
    these bytes that is not JSON raises [JSONDecodeError].  A text with
    another byte is outside of what it models and raises
    [UnicodeDecodeError], which is Python's answer for a byte that is no
    UTF-8, such as 0xFF; a [\u] escape is outside as well. *)
Module json.

Definition dquote : ascii := "034"%char.
Definition backslash : ascii := "092"%char.

Definition is_ws (c : ascii) : bool :=
  match c with
  | " "%char | "009"%char | "010"%char | "013"%char => true
  | _ => false
  end.

Fixpoint skip_ws (s : list ascii) : list ascii :=
  match s with
  | c :: r => if is_ws c then skip_ws r else s
  | [] => []
  end.

Definition is_digit (c : ascii) : bool :=
  (48 <=? N_of_ascii c)%N && (N_of_ascii c <=? 57)%N.

Fixpoint span_digits (s : list ascii) : list ascii * list ascii :=
  match s with
  | c :: r =>
      if is_digit c then let (ds, r') := span_digits r in (c :: ds, r') else ([], s)
  | [] => ([], [])
  end.

Definition digit_value (c : ascii) : Z := Z.of_N (N_of_ascii c) - 48.

Definition int_of_digits (ds : list ascii) : Z :=
  fold_left (fun acc c => 10 * acc + digit_value c)%Z ds 0%Z.

(** The character an escape letter stands for ([BACKSLASH] in
    [json.decoder]). *)
Definition unescape (c : ascii) : option ascii :=
  match c with
  | "034"%char => Some "034"%char
  | "092"%char => Some "092"%char
  | "/"%char => Some "/"%char
  | "b"%char => Some "008"%char
  | "f"%char => Some "012"%char
  | "n"%char => Some "010"%char
  | "r"%char => Some "013"%char
  | "t"%char => Some "009"%char
  | _ => None
  end.

(** [py_scanstring], strict: from just after the opening quote to the
    closing one; a control character or an unknown escape is an error. *)
Fixpoint scanstring (s : list ascii) (acc : list ascii) : option (string * list ascii) :=
  match s with
  | [] => None
  | c :: r =>
      if Ascii.eqb c dquote then Some (string_of_list_ascii (rev acc), r)
      else if Ascii.eqb c backslash then
        match r with
        | e :: r' =>
            match unescape e with
            | Some ch => scanstring r' (ch :: acc)
            | None => None
            end
        | [] => None
        end
      else if (N_of_ascii c <? 32)%N then None
      else scanstring r (c :: acc)
  end.

(** [NUMBER_RE]: an integer part, then an optional fraction and an
    optional exponent, each taken only when complete. *)
Definition scan_int_part (s : list ascii) : option (list ascii * list ascii) :=
  match s with
  | "0"%char :: r => Some (["0"%char], r)
  | c :: r =>
      if is_digit c then let (ds, r') := span_digits r in Some (c :: ds, r')
      else None
  | [] => None
  end.

Definition scan_frac (s : list ascii) : list ascii * list ascii :=
  match s with
  | "."%char :: r =>
      match span_digits r with
      | ([], _) => ([], s)
      | (ds, r') => ("."%char :: ds, r')
      end
  | _ => ([], s)
  end.

Definition scan_exp (s : list ascii) : list ascii * list ascii :=
  match s with
  | e :: r =>
      if Ascii.eqb e "e" || Ascii.eqb e "E" then
        let (sign, r1) :=
          match r with
          | c :: r1 =>
              if Ascii.eqb c "+" || Ascii.eqb c "-" then ([c], r1) else ([], r)
          | [] => ([], r)
          end in
        match span_digits r1 with
        | ([], _) => ([], s)
        | (ds, r') => (e :: sign ++ ds, r')
        end
      else ([], s)
  | [] => ([], s)
  end.

Definition scan_number (s : list ascii) : option (pyobj * list ascii) :=
  let (neg, s1) :=
    match s with
    | "-"%char :: r => (true, r)
    | _ => (false, s)
    end in
  match scan_int_part s1 with
  | None => None
  | Some (ds, r) =>
      let (frac, r1) := scan_frac r in
      let (exp, r2) := scan_exp r1 in
      match frac, exp with
      | [], [] =>
          let n := int_of_digits ds in
          Some (PyInt (if neg then (- n)%Z else n), r2)
      | _, _ =>
          let sign := if neg then ["-"%char] else [] in
          Some (PyFloat (string_of_list_ascii (sign ++ ds ++ frac ++ exp)), r2)
      end
  end.

Fixpoint strip_prefix (p s : list ascii) : option (list ascii) :=
  match p, s with
  | [], _ => Some s
  | a :: p', b :: s' => if Ascii.eqb a b then strip_prefix p' s' else None
  | _ :: _, [] => None
  end.

Definition literal (name : string) (v : pyobj) (s : list ascii)
  : option (pyobj * list ascii) :=
  match strip_prefix (list_ascii_of_string name) s with
  | Some r => Some (v, r)
  | None => None
  end.

(** [scan_once], [JSONArray] and [JSONObject].  [fuel] bounds the depth of
    the calls; [loads] gives more than the text can use. *)
Fixpoint scan_once (fuel : nat) (s : list ascii) : option (pyobj * list ascii) :=
  match fuel with
  | O => None
  | S fuel =>
      match s with
      | [] => None
      | c :: r =>
          if Ascii.eqb c dquote then
            match scanstring r [] with
            | Some (str, r') => Some (PyStr str, r')
            | None => None
            end
          else if Ascii.eqb c "{" then
            match skip_ws r with
            | c' :: r' =>
                if Ascii.eqb c' "}" then Some (PyDict [], r')
                else if Ascii.eqb c' dquote then JSONObject fuel r' []
                else None
            | [] => None
            end
          else if Ascii.eqb c "[" then
            match skip_ws r with
            | c' :: r' =>
                if Ascii.eqb c' "]" then Some (PyList [], r')
                else JSONArray fuel (c' :: r') []
            | [] => None
            end
          else if Ascii.eqb c "n" then literal "null" PyNone s
          else if Ascii.eqb c "t" then literal "true" (PyBool true) s
          else if Ascii.eqb c "f" then literal "false" (PyBool false) s
          else
            match scan_number s with
            | Some v => Some v
            | None =>
                if Ascii.eqb c "N" then literal "NaN" (PyFloat "NaN") s
                else if Ascii.eqb c "I" then literal "Infinity" (PyFloat "Infinity") s
                else if Ascii.eqb c "-" then literal "-Infinity" (PyFloat "-Infinity") s
                else None
            end
      end
  end

(** The elements of an array, from the first one, [acc] holding the ones
    read so far in reverse. *)
with JSONArray (fuel : nat) (s : list ascii) (acc : list pyobj)
  : option (pyobj * list ascii) :=
  match fuel with
  | O => None
  | S fuel =>
      match scan_once fuel s with
      | None => None
      | Some (v, r) =>
          match skip_ws r with
          | c :: r' =>
              if Ascii.eqb c "]" then Some (PyList (rev (v :: acc)), r')
              else if Ascii.eqb c "," then JSONArray fuel (skip_ws r') (v :: acc)
              else None
          | [] => None
          end
      end
  end

(** The members of an object, from just after the quote that opens a key;
    [dict(pairs)] keeps the last value of a repeated key. *)
with JSONObject (fuel : nat) (s : list ascii) (acc : list (string * pyobj))
  : option (pyobj * list ascii) :=
  match fuel with
  | O => None
  | S fuel =>
      match scanstring s [] with
      | None => None
      | Some (key, r) =>
          match skip_ws r with
          | c :: r1 =>
              if Ascii.eqb c ":" then
                match scan_once fuel (skip_ws r1) with
                | None => None
                | Some (v, r2) =>
                    let acc' := dict.setitem acc key v in
                    match skip_ws r2 with
                    | c' :: r3 =>
                        if Ascii.eqb c' "}" then Some (PyDict acc', r3)
                        else if Ascii.eqb c' "," then
                          match skip_ws r3 with
                          | q :: r4 =>
                              if Ascii.eqb q dquote then JSONObject fuel r4 acc'
                              else None
                          | [] => None
                          end
                        else None
                    | [] => None
                    end
                end
              else None
          | [] => None
          end
      end
  end.

Definition in_domain (b : byte) : bool :=
  let n := Byte.to_N b in (0 <? n)%N && (n <? 128)%N.

(** [json.loads(b)]: one value with white space around it, and nothing
    else. *)
Definition loads (b : bytes) : result pyobj :=
  if forallb in_domain b then
    let s := map ascii_of_byte b in
    match scan_once (2 * length s + 2) (skip_ws s) with
    | Some (v, r) =>
        match skip_ws r with
        | [] => Return v
        | _ :: _ => raise JSONDecodeError
        end
    | None => raise JSONDecodeError
    end
  else raise UnicodeDecodeError.

(** A bytes literal with the double quotes of the JSON text written as
    apostrophes. *)
Definition text (s : string) : bytes :=
  map (fun c => byte_of_ascii (if Ascii.eqb c "'" then dquote else c))
      (list_ascii_of_string s).

End json.


(** ** The data model ([amazon_transcribe/model.py])

    The classes the parsers build.  An attribute set from a JSON value is a
    [pyobj]; an attribute set from a parsed list is an [option] of a list,
    [None] being Python's [None]. *)

Module Item.
Record t := mk {
  start_time : pyobj;
  end_time : pyobj;
  item_type : pyobj;
  content : pyobj;
  vocabulary_filter_match : pyobj;
  speaker : pyobj;
  confidence : pyobj;
  stable : pyobj }.
End Item.

Module Entity.
Record t := mk {
  category : pyobj;
  confidence : pyobj;
  content : pyobj;
  end_time : pyobj;
  start_time : pyobj;
  type : pyobj }.
End Entity.

Module LanguageWithScore.
Record t := mk {
  language_code : pyobj;
  score : pyobj }.
End LanguageWithScore.

Module Alternative.
Record t := mk {
  transcript : pyobj;
  items : list Item.t;
  entities : option (list Entity.t) }.
End Alternative.

Module Result.
Record t := mk {
  result_id : pyobj;
  start_time : pyobj;
  end_time : pyobj;
  is_partial : pyobj;
  alternatives : option (list Alternative.t);
  channel_id : pyobj;
  language_code : pyobj;
  language_identification : option (list (option LanguageWithScore.t)) }.
End Result.

Module Transcript.
Record t := mk { results : list Result.t }.
End Transcript.

Module TranscriptEvent.
Record t := mk { transcript : Transcript.t }.
End TranscriptEvent.

Module CharacterOffsets.
Record t := mk {
  begin : pyobj;
  end_ : pyobj }.
End CharacterOffsets.

Module IssueDetected.
Record t := mk { character_offsets : CharacterOffsets.t }.
End IssueDetected.

Module CallAnalyticsItem.
Record t := mk {
  begin_offset_millis : pyobj;
  end_offset_millis : pyobj;
  item_type : pyobj;
  content : pyobj;
  confidence : pyobj;
  vocabulary_filter_match : pyobj;
  stable : pyobj }.
End CallAnalyticsItem.

Module CallAnalyticsEntity.
Record t := mk {
  begin_offset_millis : pyobj;
  end_offset_millis : pyobj;
  category : pyobj;
  entity_type : pyobj;
  content : pyobj;
  confidence : pyobj }.
End CallAnalyticsEntity.

Module UtteranceEvent.
Record t := mk {
  utterance_id : pyobj;
  is_partial : pyobj;
  participant_role : pyobj;
  begin_offset_millis : pyobj;
  end_offset_millis : pyobj;
  transcript : pyobj;
  items : option (list CallAnalyticsItem.t);
  entities : option (list CallAnalyticsEntity.t);
  sentiment : pyobj;
  issues_detected : option (list IssueDetected.t) }.
End UtteranceEvent.

Module TimestampRange.
Record t := mk {
  begin_offset_millis : pyobj;
  end_offset_millis : pyobj }.
End TimestampRange.

Module PointsOfInterest.
Record t := mk { timestamp_ranges : list TimestampRange.t }.
End PointsOfInterest.

Module CategoryEvent.
Record t := mk {
  matched_categories : list pyobj;
  matched_details : list (string * PointsOfInterest.t) }.
End CategoryEvent.

(** The events [parse] returns, each a [BaseEvent]. *)
Inductive BaseEvent : Type :=
| Transcript_event (e : TranscriptEvent.t)
| Utterance_event (e : UtteranceEvent.t)
| Category_event (e : CategoryEvent.t).

Module AudioEvent.
Record t := mk { payload : bytes }.

(** [AudioEvent(audio_chunk)]: no chunk is the empty payload. *)
Definition init (audio_chunk : option bytes) : t :=
  match audio_chunk with
  | None => mk []
  | Some chunk => mk chunk
  end.
End AudioEvent.

(** Modelled from the spec: the decoded message of
    [amazon_transcribe.eventstream] is not among the sources.  A frame is a
    mapping of header name to a typed value (string, integer, boolean or
    binary) and a byte payload. *)
Inductive header_value : Type :=
| HString (s : string)
| HInteger (z : Z)
| HBoolean (b : bool)
| HBinary (b : bytes).

Module RawEvent.
Record t := mk {
  headers : gmap string header_value;
  payload : bytes }.
End RawEvent.

(** Modelled from the spec: the [Response] of [amazon_transcribe.response]
    is not among the sources; the parser reads its status code and its
    header map. *)
Module Response.
Record t := mk {
  status_code : Z;
  headers : gmap string string }.
End Response.

(** [value == name] for the value of [headers.get(...)] and a str: only a
    string header equals a str. *)
Definition header_eq (value : option header_value) (name : string) : bool :=
  match value with
  | Some (HString s) => String.eqb s name
  | _ => false
  end.

(** [value in names] for a list of str. *)
Definition header_in (value : option header_value) (names : list string) : bool :=
  existsb (header_eq value) names.

(** Modelled from the spec: the namespace of [amazon_transcribe.exceptions],
    each class with what calling it on one argument does.  The six kinds and
    the base class build their instance from the message;
    [UnknownServiceException] takes three arguments, so the call raises
    [TypeError].  These are the classes [deserialize.py] imports from the
    module.  What else the module holds (the attributes every module has,
    other classes such as [ValidationException]) is not modelled: the
    theorems on the class that is raised are stated at the six kinds and at
    the base class only. *)
Definition exceptions : list (string * (pyobj -> result ServiceException)) :=
  [ ("ServiceException", fun m => Return (BaseServiceException m));
    ("BadRequestException", fun m => Return (BadRequestException m));
    ("ConflictException", fun m => Return (ConflictException m));
    ("InternalFailureException", fun m => Return (InternalFailureException m));
    ("LimitExceededException", fun m => Return (LimitExceededException m));
    ("ServiceUnavailableException", fun m => Return (ServiceUnavailableException m));
    ("SerializationException", fun m => Return (SerializationException m));
    ("UnknownServiceException", fun _ => raise TypeError) ].

(** [getattr(transcribe_exceptions, name, ServiceException)]: the attribute
    name must be a str. *)
Definition getattr_exceptions (name : header_value)
  : result (pyobj -> result ServiceException) :=
  match name with
  | HString s =>
      match dict.lookup exceptions s with
      | Some cls => Return cls
      | None => Return (fun m => Return (BaseServiceException m))
      end
  | _ => raise TypeError
  end.

(** [s.split(sep)] for a one-character separator. *)
Fixpoint split (sep : ascii) (s : string) : list string :=
  match s with
  | EmptyString => [EmptyString]
  | String c r =>
      if Ascii.eqb c sep then EmptyString :: split sep r
      else
        match split sep r with
        | h :: t => String c h :: t
        | [] => [String c EmptyString]
        end
  end.

(** [l[0]]. *)
Definition first {A} (l : list A) : result A :=
  match l with
  | x :: _ => Return x
  | [] => raise IndexError
  end.

(** [except ValueError] and [except json.decoder.JSONDecodeError]. *)
Definition except_ValueError (e : exn) : bool :=
  match e with
  | Builtin b => is_ValueError b
  | Service _ => false
  end.

Definition except_JSONDecodeError (e : exn) : bool :=
  match e with
  | Builtin b => is_JSONDecodeError b
  | Service _ => false
  end.

(** ** [amazon_transcribe/deserialize.py] *)

Section deserialize.

(** [json.loads]. *)
Variable loads : bytes -> result pyobj.

(** *** [TranscribeStreamingResponseParser] *)

Definition _get_error_code (http_response : Response.t) : result string :=
  let error_code := "Unknown" in
  match Response.headers http_response !! "x-amzn-errortype" with
  | Some error_code =>
      (* Could be x-amzn-errortype: ValidationException: *)
      first (split ":" error_code)
  | None => Return error_code
  end.

Definition _get_error_message (body_bytes : bytes) : result pyobj :=
  let error_message := PyStr "An unknown error was returned by the service" in
  match loads body_bytes with
  | Raise e =>
      if except_JSONDecodeError e then Return error_message else Raise e
  | Return parsed_body =>
      has_Message ← contains parsed_body "Message";
      if has_Message : bool then getitem parsed_body "Message"
      else
        has_message ← contains parsed_body "message";
        if has_message : bool then getitem parsed_body "message"
        else Return error_message
  end.

Definition parse_exception (http_response : Response.t) (body_bytes : bytes)
  : result ServiceException :=
  error_code ← _get_error_code http_response;
  error_message ← _get_error_message body_bytes;
  if String.eqb error_code "BadRequestException" then
    Return (BadRequestException error_message)
  else if String.eqb error_code "ConflictException" then
    Return (ConflictException error_message)
  else if String.eqb error_code "InternalFailureException" then
    Return (InternalFailureException error_message)
  else if String.eqb error_code "LimitExceededException" then
    Return (LimitExceededException error_message)
  else if String.eqb error_code "ServiceUnavailableException" then
    Return (ServiceUnavailableException error_message)
  else if String.eqb error_code "SerializationException" then
    Return (SerializationException error_message)
  else
    Return (UnknownServiceException
              (Response.status_code http_response) error_code error_message).

(** *** [TranscribeStreamingEventParser]: the transcript event *)

Definition _parse_item (current_node : pyobj) : result Item.t :=
  start_time ← get current_node "StartTime";
  end_time ← get current_node "EndTime";
  item_type ← get current_node "Type";
  content ← get current_node "Content";
  vocabulary_filter_match ← get current_node "VocabularyFilterMatch";
  speaker ← get current_node "Speaker";
  confidence ← get current_node "Confidence";
  stable ← get current_node "Stable";
  Return (Item.mk start_time end_time item_type content
                  vocabulary_filter_match speaker confidence stable).

Definition _parse_entity (current_node : pyobj) : result Entity.t :=
  start_time ← get current_node "StartTime";
  end_time ← get current_node "EndTime";
  category ← get current_node "Category";
  type ← get current_node "Type";
  content ← get current_node "Content";
  confidence ← get current_node "Confidence";
  Return (Entity.mk category confidence content end_time start_time type).

Definition _parse_item_list (current_node : pyobj) : result (list Item.t) :=
  comprehension _parse_item current_node.

Definition _parse_entity_list (current_node : pyobj)
  : result (option (list Entity.t)) :=
  match current_node with
  | PyNone => Return None
  | _ => Some <$> comprehension _parse_entity current_node
  end.

Definition _parse_alternative (current_node : pyobj) : result Alternative.t :=
  transcript ← get current_node "Transcript";
  items ← get current_node "Items" ≫= _parse_item_list;
  entities ← get current_node "Entities" ≫= _parse_entity_list;
  Return (Alternative.mk transcript items entities).

Definition _parse_language_with_score (current_node : pyobj)
  : result (option LanguageWithScore.t) :=
  match current_node with
  | PyNone => Return None
  | _ =>
      language_code ← get current_node "LanguageCode";
      score ← get current_node "Score";
      Return (Some (LanguageWithScore.mk language_code score))
  end.

Definition _parse_language_identification_list (current_node : pyobj)
  : result (option (list (option LanguageWithScore.t))) :=
  match current_node with
  | PyNone => Return None
  | _ => Some <$> comprehension _parse_language_with_score current_node
  end.

Definition _parse_alternative_list (current_node : pyobj)
  : result (option (list Alternative.t)) :=
  match current_node with
  | PyNone => Return None
  | _ => Some <$> comprehension _parse_alternative current_node
  end.

Definition _parse_result (current_node : pyobj) : result Result.t :=
  alternatives ← get current_node "Alternatives" ≫= _parse_alternative_list;
  language_identification ←
    get current_node "LanguageIdentification" ≫= _parse_language_identification_list;
  result_id ← get current_node "ResultId";
  start_time ← get current_node "StartTime";
  end_time ← get current_node "EndTime";
  is_partial ← get current_node "IsPartial";
  channel_id ← get current_node "ChannelId";
  Return (Result.mk result_id start_time end_time is_partial alternatives
                    channel_id PyNone language_identification).

Definition _parse_result_list (current_node : pyobj) : result (list Result.t) :=
  comprehension _parse_result current_node.

Definition _parse_transcript (current_node : pyobj) : result Transcript.t :=
  results ← get current_node "Results" ≫= _parse_result_list;
  Return (Transcript.mk results).

Definition _parse_transcript_event (current_node : pyobj) : result TranscriptEvent.t :=
  transcript ← get current_node "Transcript" ≫= _parse_transcript;
  Return (TranscriptEvent.mk transcript).

(** *** The utterance event *)

Definition _parse_call_analytics_item (current_node : pyobj)
  : result CallAnalyticsItem.t :=
  begin_offset_millis ← get current_node "BeginOffsetMillis";
  end_offset_millis ← get current_node "EndOffsetMillis";
  item_type ← get current_node "Type";
  content ← get current_node "Content";
  confidence ← get current_node "Confidence";
  vocabulary_filter_match ← get current_node "VocabularyFilterMatch";
  stable ← get current_node "Stable";
  Return (CallAnalyticsItem.mk begin_offset_millis end_offset_millis item_type
                               content confidence vocabulary_filter_match stable).

Definition _parse_call_analytics_entity (current_node : pyobj)
  : result CallAnalyticsEntity.t :=
  begin_offset_millis ← get current_node "BeginOffsetMillis";
  end_offset_millis ← get current_node "EndOffsetMillis";
  category ← get current_node "Category";
  entity_type ← get current_node "Type";
  content ← get current_node "Content";
  confidence ← get current_node "Confidence";
  Return (CallAnalyticsEntity.mk begin_offset_millis end_offset_millis category
                                 entity_type content confidence).

Definition _parse_character_offsets (current_node : pyobj)
  : result CharacterOffsets.t :=
  begin ← get current_node "Begin";
  end_ ← get current_node "End";
  Return (CharacterOffsets.mk begin end_).

Definition _parse_issue_detected (current_node : pyobj) : result IssueDetected.t :=
  character_offsets ← get current_node "CharacterOffsets" ≫= _parse_character_offsets;
  Return (IssueDetected.mk character_offsets).

Definition _parse_call_analytics_item_list (current_node : pyobj)
  : result (option (list CallAnalyticsItem.t)) :=
  match current_node with
  | PyNone => Return None
  | _ => Some <$> comprehension _parse_call_analytics_item current_node
  end.

Definition _parse_call_analytics_entity_list (current_node : pyobj)
  : result (option (list CallAnalyticsEntity.t)) :=
  match current_node with
  | PyNone => Return None
  | _ => Some <$> comprehension _parse_call_analytics_entity current_node
  end.

Definition _parse_issues_detected_list (current_node : pyobj)
  : result (option (list IssueDetected.t)) :=
  match current_node with
  | PyNone => Return None
  | _ => Some <$> comprehension _parse_issue_detected current_node
  end.

Definition _parse_utterance_event (current_node : pyobj) : result UtteranceEvent.t :=
  utterance_id ← get current_node "UtteranceId";
  is_partial ← get current_node "IsPartial";
  participant_role ← get current_node "ParticipantRole";
  begin_offset_millis ← get current_node "BeginOffsetMillis";
  end_offset_millis ← get current_node "EndOffsetMillis";
  transcript ← get current_node "Transcript";
  items ← get current_node "Items" ≫= _parse_call_analytics_item_list;
  entities ← get current_node "Entities" ≫= _parse_call_analytics_entity_list;
  sentiment ← get current_node "Sentiment";
  issues_detected ← get current_node "IssuesDetected" ≫= _parse_issues_detected_list;
  Return (UtteranceEvent.mk utterance_id is_partial participant_role
                            begin_offset_millis end_offset_millis transcript
                            items entities sentiment issues_detected).

(** *** The category event *)

Definition _parse_category (current_node : pyobj) : result pyobj :=
  Return current_node.

Definition _parse_matched_categories_list (current_node : pyobj)
  : result (list pyobj) :=
  comprehension _parse_category current_node.

Definition _parse_timestamp_range (current_node : pyobj) : result TimestampRange.t :=
  begin_offset_millis ← get current_node "BeginOffsetMillis";
  end_offset_millis ← get current_node "EndOffsetMillis";
  Return (TimestampRange.mk begin_offset_millis end_offset_millis).

Definition _parse_timestamp_ranges (current_node : pyobj)
  : result (list TimestampRange.t) :=
  comprehension _parse_timestamp_range current_node.

Definition _parse_points_of_interest (current_node : pyobj)
  : result PointsOfInterest.t :=
  timestamp_ranges ← get current_node "TimestampRanges" ≫= _parse_timestamp_ranges;
  Return (PointsOfInterest.mk timestamp_ranges).

(** The loop [for key, value in current_node.items()], [matched_details]
    being the dict built so far. *)
Fixpoint matched_details_loop (kvs : list (string * pyobj))
         (matched_details : list (string * PointsOfInterest.t))
  : result (list (string * PointsOfInterest.t)) :=
  match kvs with
  | [] => Return matched_details
  | (key, value) :: kvs' =>
      poi ← _parse_points_of_interest value;
      matched_details_loop kvs' (dict.setitem matched_details key poi)
  end.

Definition _parse_matched_details_dict (current_node : pyobj)
  : result (list (string * PointsOfInterest.t)) :=
  kvs ← items current_node;
  matched_details_loop kvs [].

Definition _parse_category_event (current_node : pyobj) : result CategoryEvent.t :=
  matched_categories ←
    get current_node "MatchedCategories" ≫= _parse_matched_categories_list;
  matched_details ← get current_node "MatchedDetails" ≫= _parse_matched_details_dict;
  Return (CategoryEvent.mk matched_categories matched_details).

(** *** Exceptions in the stream, and the dispatch *)

Definition _parse_event_exception (raw_event : RawEvent.t) : result ServiceException :=
  let exception_type :=
    default (HString "ServiceException")
            (RawEvent.headers raw_event !! ":exception-type") in
  exception_cls ← getattr_exceptions exception_type;
  raw_body ←
    match loads (RawEvent.payload raw_event) with
    | Return raw_body => Return raw_body
    | Raise e => if except_ValueError e then Return (PyDict []) else Raise e
    end;
  exception_msg ←
    get_default raw_body "Message" (PyStr "An unknown service exception occured");
  exception_cls exception_msg.

Definition parse (raw_event : RawEvent.t) : result (option BaseEvent) :=
  let message_type := RawEvent.headers raw_event !! ":message-type" in
  if header_in message_type ["error"; "exception"] then
    e ← _parse_event_exception raw_event;
    Raise (Service e)
  else if header_eq message_type "event" then
    let event_type := RawEvent.headers raw_event !! ":event-type" in
    raw_body ← loads (RawEvent.payload raw_event);
    if header_eq event_type "TranscriptEvent" then
      e ← _parse_transcript_event raw_body;
      Return (Some (Transcript_event e))
    else if header_eq event_type "UtteranceEvent" then
      e ← _parse_utterance_event raw_body;
      Return (Some (Utterance_event e))
    else if header_eq event_type "CategoryEvent" then
      e ← _parse_category_event raw_body;
      Return (Some (Category_event e))
    else Return None
  else Return None.

End deserialize.

(** ** [AudioEventSerializer] *)

(** The dict display [{k1: v1, k2: v2, k3: v3}]: the items are inserted from
    left to right. *)
Definition dict_display (kvs : list (string * string)) : gmap string string :=
  fold_left (fun m kv => <[kv.1 := kv.2]> m) kvs ∅.

(** [amazon_transcribe/serialize.py]. *)
Module amazon_transcribe.
Module AudioEventSerializer.
Definition serialize (audio_event : AudioEvent.t) : gmap string string * bytes :=
  let headers :=
    dict_display [ (":message-type", "event");
                   (":event-type", "AudioEvent");
                   (":content-type", "application/octet-stream") ] in
  (headers, AudioEvent.payload audio_event).
End AudioEventSerializer.
End amazon_transcribe.

(** [transcribe/serialize.py]. *)
Module transcribe.
Module AudioEventSerializer.
Definition serialize (audio_event : AudioEvent.t) : gmap string string * bytes :=
  let headers :=
    dict_display [ (":message-type", "event");
                   (":event-type", "AudioEvent");
                   (":content-type", "application/octet-stream") ] in
  (headers, AudioEvent.payload audio_event).
End AudioEventSerializer.
End transcribe.

(** ** Frames and responses to run the parsers on *)

Definition frame (hs : list (string * header_value)) (payload : string) : RawEvent.t :=
  RawEvent.mk (list_to_map hs) (json.text payload).

Definition response (status_code : Z) (hs : list (string * string)) : Response.t :=
  Response.mk status_code (list_to_map hs).

(** ** The vocabulary of the specification *)

(** The kind of a service exception: the six named kinds, and [Unknown] for
    the base class and for [UnknownServiceException]. *)
Inductive kind : Type :=
| BadRequest
| Conflict
| InternalFailure
| LimitExceeded
| ServiceUnavailable
| Serialization
| Unknown.

Definition kind_of (e : ServiceException) : kind :=
  match e with
  | BaseServiceException _ => Unknown
  | BadRequestException _ => BadRequest
  | ConflictException _ => Conflict
  | InternalFailureException _ => InternalFailure
  | LimitExceededException _ => LimitExceeded
  | ServiceUnavailableException _ => ServiceUnavailable
  | SerializationException _ => Serialization
  | UnknownServiceException _ _ _ => Unknown
  end.

Definition message_of (e : ServiceException) : pyobj :=
  match e with
  | BaseServiceException m
  | BadRequestException m
  | ConflictException m
  | InternalFailureException m
  | LimitExceededException m
  | ServiceUnavailableException m
  | SerializationException m
  | UnknownServiceException _ _ m => m
  end.

(** The fixed kind table: the six error codes and the exception each one
    names. *)
Definition kind_table : list (string * (pyobj -> ServiceException)) :=
  [ ("BadRequestException", BadRequestException);
    ("ConflictException", ConflictException);
    ("InternalFailureException", InternalFailureException);
    ("LimitExceededException", LimitExceededException);
    ("ServiceUnavailableException", ServiceUnavailableException);
    ("SerializationException", SerializationException) ].

(** [s] has no colon. *)
Fixpoint no_colon (s : string) : bool :=
  match s with
  | EmptyString => true
  | String c r => negb (Ascii.eqb c ":") && no_colon r
  end.

(** The shape of a payload that carries the structure the parsers read
    without a check: the nodes they call [get] on are objects and the nodes
    they iterate over are lists.  A key whose parser tests for [None] may be
    absent or null. *)
Definition field (d : list (string * pyobj)) (key : string) : pyobj :=
  dict_get d key PyNone.

Definition is_object (node : pyobj) : bool :=
  match node with
  | PyDict _ => true
  | _ => false
  end.










(** The call returns a value: it does not raise. *)
Definition returns {A} (r : result A) : Prop := exists a, r = Return a.

(** ** The configuration event ([amazon_transcribe/model.py])

    The classes whose [__json__] property builds the JSON value that is
    sent.  An attribute is a [pyobj], [PyNone] being Python's [None]. *)

Module ChannelDefinition.
Record t := mk {
  channel_id : pyobj;
  participant_role : pyobj }.

Definition __json__ (self : t) : pyobj :=
  PyDict [("ChannelId", channel_id self); ("ParticipantRole", participant_role self)].
End ChannelDefinition.

(** [value is not None]. *)
Definition is_not_None (value : pyobj) : bool :=
  match value with
  | PyNone => false
  | _ => true
  end.

Module PostCallAnalyticsSettings.
Record t := mk {
  output_location : pyobj;
  data_access_role_arn : pyobj;
  output_encryption_kms_key_id : pyobj;
  content_redaction_output : pyobj }.

(** [PostCallAnalyticsSettings(output_location, data_access_role_arn)]: the
    two other arguments default to [None]. *)
Definition init (output_location data_access_role_arn : pyobj) : t :=
  mk output_location data_access_role_arn PyNone PyNone.

Definition __json__ (self : t) : pyobj :=
  let response :=
    [("OutputLocation", output_location self);
     ("DataAccessRoleArn", data_access_role_arn self)] in
  let response :=
    if is_not_None (output_encryption_kms_key_id self)
    then dict.setitem response "OutputEncryptionKMSKeyId" (output_encryption_kms_key_id self)
    else response in
  let response :=
    if is_not_None (content_redaction_output self)
    then dict.setitem response "ContentRedactionOutput" (content_redaction_output self)
    else response in
  PyDict response.
End PostCallAnalyticsSettings.

Module ConfigurationEvent.
Record t := mk {
  channel_definitions : list ChannelDefinition.t;
  post_call_analytics_settings : option PostCallAnalyticsSettings.t }.

Definition __json__ (self : t) : pyobj :=
  let response :=
    [("ChannelDefinitions",
      PyList (map ChannelDefinition.__json__ (channel_definitions self)))] in
  let response :=
    match post_call_analytics_settings self with
    | Some settings =>
        dict.setitem response "PostCallAnalyticsSettings"
                     (PostCallAnalyticsSettings.__json__ settings)
    | None => response
    end in
  PyDict response.
End ConfigurationEvent.

(** ** The response of the start of a stream

    The classes of [amazon_transcribe/model.py] that the response parsers
    build.  [Stream] is the type of the body stream, which the parsers hand
    over as it is. *)

Module TranscriptResultStream.
Record t (Stream : Type) := mk { raw_stream : Stream }.
Arguments mk {Stream} raw_stream.
Arguments raw_stream {Stream} _.
End TranscriptResultStream.

Module StartStreamTranscriptionResponse.
Record t (Stream : Type) := mk {
  transcript_result_stream : TranscriptResultStream.t Stream;
  request_id : option string;
  language_code : option string;
  media_sample_rate_hz : option Z;
  media_encoding : option string;
  vocabulary_name : option string;
  session_id : option string;
  vocab_filter_name : option string;
  vocab_filter_method : option string;
  show_speaker_label : option bool;
  enable_channel_identification : option bool;
  number_of_channels : option Z;
  enable_partial_results_stabilization : option bool;
  partial_results_stability : option string;
  language_model_name : option string }.
Arguments mk {Stream}.
Arguments transcript_result_stream {Stream} _.
Arguments request_id {Stream} _.
Arguments language_code {Stream} _.
Arguments media_sample_rate_hz {Stream} _.
Arguments media_encoding {Stream} _.
Arguments vocabulary_name {Stream} _.
Arguments session_id {Stream} _.
Arguments vocab_filter_name {Stream} _.
Arguments vocab_filter_method {Stream} _.
Arguments show_speaker_label {Stream} _.
Arguments enable_channel_identification {Stream} _.
Arguments number_of_channels {Stream} _.
Arguments enable_partial_results_stabilization {Stream} _.
Arguments partial_results_stability {Stream} _.
Arguments language_model_name {Stream} _.
End StartStreamTranscriptionResponse.

Module StartCallAnalyticsStreamTranscriptionResponse.
Record t (Stream : Type) := mk {
  transcript_result_stream : TranscriptResultStream.t Stream;
  request_id : option string;
  language_code : option string;
  media_sample_rate_hz : option Z;
  media_encoding : option string;
  vocabulary_name : option string;
  session_id : option string;
  vocab_filter_name : option string;
  vocab_filter_method : option string;
  language_model_name : option string;
  enable_partial_results_stabilization : option bool;
  partial_results_stability : option string;
  content_identification_type : option string;
  content_redaction_type : option string;
  pii_entity_types : option string }.
Arguments mk {Stream}.
Arguments transcript_result_stream {Stream} _.
Arguments request_id {Stream} _.
Arguments language_code {Stream} _.
Arguments media_sample_rate_hz {Stream} _.
Arguments media_encoding {Stream} _.
Arguments vocabulary_name {Stream} _.
Arguments session_id {Stream} _.
Arguments vocab_filter_name {Stream} _.
Arguments vocab_filter_method {Stream} _.
Arguments language_model_name {Stream} _.
Arguments enable_partial_results_stabilization {Stream} _.
Arguments partial_results_stability {Stream} _.
Arguments content_identification_type {Stream} _.
Arguments content_redaction_type {Stream} _.
Arguments pii_entity_types {Stream} _.
End StartCallAnalyticsStreamTranscriptionResponse.

(** *** The response parsers of [TranscribeStreamingResponseParser] *)

Section response_parsers.

(** The type of the body stream. *)
Variable Stream : Type.

(** The built-in [int] on a str, and [ensure_boolean] of
    [amazon_transcribe.utils], which is not among the sources. *)
Variable int : string -> result Z.
Variable ensure_boolean : string -> result bool.

(** [if value:] for an optional str: [None] and the empty str are false. *)
Definition _raw_value_to_int (value : option string) : result (option Z) :=
  match value with
  | Some (String c r) => Some <$> int (String c r)
  | Some EmptyString => Return None
  | None => Return None
  end.

Definition _raw_value_to_bool (value : option string) : result (option bool) :=
  match value with
  | Some s => Some <$> ensure_boolean s
  | None => Return None
  end.

Definition parse_start_stream_transcription_response
           (http_response : Response.t) (body_stream : Stream)
  : result (StartStreamTranscriptionResponse.t Stream) :=
  let headers := Response.headers http_response in
  let request_id := headers !! "x-amzn-request-id" in
  let language_code := headers !! "x-amzn-transcribe-language-code" in
  let media_encoding := headers !! "x-amzn-transcribe-media-encoding" in
  let vocabulary_name := headers !! "x-amzn-transcribe-vocabulary-name" in
  let session_id := headers !! "x-amzn-transcribe-session-id" in
  let vocab_filter_name := headers !! "x-amzn-transcribe-vocabulary-filter-name" in
  let vocab_filter_method := headers !! "x-amzn-transcribe-vocabulary-filter-method" in
  show_speaker_label ←
    _raw_value_to_bool (headers !! "x-amzn-transcribe-show-speaker-label");
  enable_channel_identification ←
    _raw_value_to_bool (headers !! "x-amzn-transcribe-enable-channel-identification");
  number_of_channels ←
    _raw_value_to_int (headers !! "x-amzn-transcribe-number-of-channels");
  media_sample_rate_hz ←
    _raw_value_to_int (headers !! "x-amzn-transcribe-sample-rate");
  enable_partial_results_stabilization ←
    _raw_value_to_bool
      (headers !! "x-amzn-transcribe-enable-partial-results-stabilization");
  let partial_results_stability :=
    headers !! "x-amzn-transcribe-partial-results-stability" in
  let language_model_name := headers !! "x-amzn-transcribe-language-model-name" in
  let transcript_result_stream := TranscriptResultStream.mk body_stream in
  Return (StartStreamTranscriptionResponse.mk
            transcript_result_stream request_id language_code media_sample_rate_hz
            media_encoding vocabulary_name session_id vocab_filter_name
            vocab_filter_method show_speaker_label enable_channel_identification
            number_of_channels enable_partial_results_stabilization
            partial_results_stability language_model_name).

Definition parse_start_call_analytics_stream_transcription_response
           (http_response : Response.t) (body_stream : Stream)
  : result (StartCallAnalyticsStreamTranscriptionResponse.t Stream) :=
  let headers := Response.headers http_response in
  let request_id := headers !! "x-amzn-request-id" in
  let language_code := headers !! "x-amzn-transcribe-language-code" in
  let media_encoding := headers !! "x-amzn-transcribe-media-encoding" in
  let vocabulary_name := headers !! "x-amzn-transcribe-vocabulary-name" in
  let session_id := headers !! "x-amzn-transcribe-session-id" in
  let vocab_filter_name := headers !! "x-amzn-transcribe-vocabulary-filter-name" in
  let vocab_filter_method := headers !! "x-amzn-transcribe-vocabulary-filter-method" in
  media_sample_rate_hz ←
    _raw_value_to_int (headers !! "x-amzn-transcribe-sample-rate");
  enable_partial_results_stabilization ←
    _raw_value_to_bool
      (headers !! "x-amzn-transcribe-enable-partial-results-stabilization");
  let partial_results_stability :=
    headers !! "x-amzn-transcribe-partial-results-stability" in
  let language_model_name := headers !! "x-amzn-transcribe-language-model-name" in
  let content_identification_type :=
    headers !! "x-amzn-transcribe-content-identification-type" in
  let content_redaction_type := headers !! "x-amzn-transcribe-content-redaction-type" in
  let pii_entity_types := headers !! "x-amzn-transcribe-pii-entity-types" in
  let transcript_result_stream := TranscriptResultStream.mk body_stream in
  Return (StartCallAnalyticsStreamTranscriptionResponse.mk
            transcript_result_stream request_id language_code media_sample_rate_hz
            media_encoding vocabulary_name session_id vocab_filter_name
            vocab_filter_method language_model_name
            enable_partial_results_stabilization partial_results_stability
            content_identification_type content_redaction_type pii_entity_types).

End response_parsers.

(** ** The dispatch on the message type *)

Section dispatch.

Variable loads : bytes -> result pyobj.

Lemma header_eq_true value name :
  header_eq value name = true <-> value = Some (HString name).
Proof.
  destruct value as [[s| | |]|]; simpl; split; try discriminate.
  - intros H. apply String.eqb_eq in H. by subst.
  - intros [= ->]. apply String.eqb_refl.
Qed.

Lemma header_eq_false_absent name : header_eq None name = false.
Proof. reflexivity. Qed.

Lemma header_eq_false_other s name :
  s <> name -> header_eq (Some (HString s)) name = false.
Proof. intros H. simpl. by apply String.eqb_neq. Qed.

(** C9.  A raw event with no [:message-type] header, or with one whose
    value is a string other than "error", "exception" and "event", makes
    [parse] return [None]: no event, no error. *)
Theorem parse_other_message_type (raw_event : RawEvent.t) :
  RawEvent.headers raw_event !! ":message-type" = None \/
  (exists s, RawEvent.headers raw_event !! ":message-type" = Some (HString s) /\
             s <> "error" /\ s <> "exception" /\ s <> "event") ->
  parse loads raw_event = Return None.
Proof.
  intros [H | (s & H & Herror & Hexception & Hevent)]; unfold parse, header_in;
    rewrite H; simpl.
  - reflexivity.
  - apply String.eqb_neq in Herror, Hexception, Hevent.
    by rewrite Herror, Hexception, Hevent.
Qed.

(** What [parse] does with a data frame whose event type is none of the
    three it knows: the payload is decoded first, and an event is never
    built. *)
Lemma parse_event_unrecognized (raw_event : RawEvent.t) :
  RawEvent.headers raw_event !! ":message-type" = Some (HString "event") ->
  header_in (RawEvent.headers raw_event !! ":event-type")
            ["TranscriptEvent"; "UtteranceEvent"; "CategoryEvent"] = false ->
  parse loads raw_event =
    match loads (RawEvent.payload raw_event) with
    | Return _ => Return None
    | Raise e => Raise e
    end.
Proof.
  intros Hmsg Hevent. unfold parse. rewrite Hmsg. simpl.
  unfold header_in in Hevent. simpl in Hevent.
  rewrite !orb_false_iff in Hevent. destruct Hevent as (H1 & H2 & H3 & _).
  rewrite H1, H2, H3.
  by destruct (loads (RawEvent.payload raw_event)).
Qed.

(** C2, amended.  A data frame whose [:event-type] is not one of
    TranscriptEvent, UtteranceEvent and CategoryEvent yields no event and
    no error whenever [json.loads] decodes its payload; the payload is
    decoded before the event type is looked at, so an error of
    [json.loads] is raised by [parse]. *)
Theorem parse_unrecognized_event_type (raw_event : RawEvent.t) :
  RawEvent.headers raw_event !! ":message-type" = Some (HString "event") ->
  (forall s, RawEvent.headers raw_event !! ":event-type" = Some (HString s) ->
             s <> "TranscriptEvent" /\ s <> "UtteranceEvent" /\ s <> "CategoryEvent") ->
  (forall raw_body, loads (RawEvent.payload raw_event) = Return raw_body ->
                    parse loads raw_event = Return None) /\
  (forall e, loads (RawEvent.payload raw_event) = Raise e ->
             parse loads raw_event = Raise e).
Proof.
  intros Hmsg Hevent.
  assert (header_in (RawEvent.headers raw_event !! ":event-type")
            ["TranscriptEvent"; "UtteranceEvent"; "CategoryEvent"] = false) as Hin.
  { unfold header_in. simpl.
    destruct (RawEvent.headers raw_event !! ":event-type") as [[s| | |]|]; try reflexivity.
    destruct (Hevent s eq_refl) as (H1 & H2 & H3). simpl.
    apply String.eqb_neq in H1, H2, H3. by rewrite H1, H2, H3. }
  rewrite (parse_event_unrecognized raw_event Hmsg Hin).
  split; intros ? ->; reflexivity.
Qed.

End dispatch.

Lemma parse_other_message_type_witness :
  parse json.loads (frame [(":message-type", HString "ping")] "") = Return None.
Proof.
  apply parse_other_message_type. right. exists "ping".
  split; [reflexivity | repeat split; discriminate].
Defined.

(** C2, counterexample.  A data frame of an event type unknown to the parser
    and with an empty payload: [json.loads] raises, and so does [parse]. *)
Lemma parse_unrecognized_event_type_raises :
  parse json.loads
        (frame [(":message-type", HString "event");
                (":event-type", HString "FutureEvent")] "")
  = Raise (Builtin JSONDecodeError).
Proof. vm_compute. reflexivity. Qed.

Lemma parse_unrecognized_event_type_witness :
  parse json.loads
        (frame [(":message-type", HString "event");
                (":event-type", HString "FutureEvent")] "{'Later':[1,2]}")
  = Return None.
Proof.
  refine (proj1 (parse_unrecognized_event_type json.loads
                   (frame [(":message-type", HString "event");
                           (":event-type", HString "FutureEvent")] "{'Later':[1,2]}")
                   eq_refl _) (PyDict [("Later", PyList [PyInt 1; PyInt 2])]) _).
  - intros s [= <-]. repeat split; discriminate.
  - vm_compute. reflexivity.
Defined.

(** ** The transcript event *)

(** The payload of the completeness example, byte by byte. *)
Example empty_results_payload :
  json.text "{'Transcript':{'Results':[]}}" =
  [x7b; x22; x54; x72; x61; x6e; x73; x63; x72; x69; x70; x74; x22; x3a;
   x7b; x22; x52; x65; x73; x75; x6c; x74; x73; x22; x3a; x5b; x5d; x7d; x7d].
Proof. reflexivity. Qed.

(** C6.  A frame with [:message-type] "event", [:event-type]
    "TranscriptEvent" and the payload [{"Transcript":{"Results":[]}}] is
    dispatched to one transcript event whose list of results is empty. *)
Theorem parse_transcript_event_empty_results (raw_event : RawEvent.t) :
  RawEvent.headers raw_event !! ":message-type" = Some (HString "event") ->
  RawEvent.headers raw_event !! ":event-type" = Some (HString "TranscriptEvent") ->
  RawEvent.payload raw_event = json.text "{'Transcript':{'Results':[]}}" ->
  parse json.loads raw_event =
    Return (Some (Transcript_event (TranscriptEvent.mk (Transcript.mk [])))).
Proof.
  intros Hmsg Hevent Hpayload. unfold parse.
  rewrite Hmsg, Hevent, Hpayload. vm_compute. reflexivity.
Qed.

Lemma parse_transcript_event_empty_results_witness :
  parse json.loads
        (frame [(":message-type", HString "event");
                (":event-type", HString "TranscriptEvent")]
               "{'Transcript':{'Results':[]}}")
  = Return (Some (Transcript_event (TranscriptEvent.mk (Transcript.mk [])))).
Proof.
  apply parse_transcript_event_empty_results; reflexivity.
Defined.

(** ** The audio event serializer *)

(** C8.  For every audio event, both serializers return the header mapping
    [{":message-type": "event", ":event-type": "AudioEvent", ":content-type":
    "application/octet-stream"}], which has these three entries and no other,
    and the payload of the event unchanged. *)
Theorem serialize_audio_event (audio_event : AudioEvent.t) :
  let expected : gmap string string :=
    {[ ":message-type" := "event";
       ":event-type" := "AudioEvent";
       ":content-type" := "application/octet-stream" ]} in
  amazon_transcribe.AudioEventSerializer.serialize audio_event
    = (expected, AudioEvent.payload audio_event) /\
  transcribe.AudioEventSerializer.serialize audio_event
    = (expected, AudioEvent.payload audio_event) /\
  (forall name,
      expected !! name =
        if String.eqb name ":message-type" then Some "event"
        else if String.eqb name ":event-type" then Some "AudioEvent"
        else if String.eqb name ":content-type" then Some "application/octet-stream"
        else None) /\
  size expected = 3.
Proof.
  intros expected.
  assert (dict_display [ (":message-type", "event"); (":event-type", "AudioEvent");
                         (":content-type", "application/octet-stream") ] = expected) as Hd.
  { unfold dict_display, expected. simpl. apply map_eq. intros name.
    repeat (rewrite lookup_insert; case_decide; subst; try done).
    by rewrite lookup_empty, lookup_singleton_ne. }
  split; [| split; [| split]].
  - unfold amazon_transcribe.AudioEventSerializer.serialize. by rewrite Hd.
  - unfold transcribe.AudioEventSerializer.serialize. by rewrite Hd.
  - intros name. unfold expected.
    destruct (String.eqb_spec name ":message-type") as [-> | H1]; [done |].
    destruct (String.eqb_spec name ":event-type") as [-> | H2]; [done |].
    destruct (String.eqb_spec name ":content-type") as [-> | H3]; [done |].
    rewrite !lookup_insert_ne by done. by apply lookup_singleton_ne.
  - reflexivity.
Qed.

(** ** The mapping of errors to service exceptions *)

(** Case analysis on the first comparison of a literal with [x] left in the
    goal; in the equal case [x] becomes the literal. *)
Ltac case_eqb x :=
  match goal with
  | |- context [String.eqb ?a x] =>
      destruct (String.eqb_spec a x) as [<- | ?]
  end.

Lemma split_cons sep s : exists h t, split sep s = h :: t.
Proof.
  induction s as [| c r IH]; simpl; [by eauto |].
  destruct (Ascii.eqb c sep); [by eauto |].
  destruct IH as (h & t & ->). by eauto.
Qed.

(** [s.split(":")[0]] is the text of [s] before its first colon. *)
Lemma first_split_colon s :
  exists code,
    first (split ":" s) = Return code /\
    no_colon code = true /\
    (s = code \/ exists detail, s = code +:+ ":" +:+ detail).
Proof.
  induction s as [| c r IH]; simpl.
  - exists "". by auto.
  - destruct (Ascii.eqb_spec c ":") as [-> | Hc].
    + exists "". simpl. repeat split. right. by exists r.
    + destruct IH as (code & Hfirst & Hno & Hs).
      destruct (split ":" r) as [| h t]; [discriminate |].
      injection Hfirst as ->.
      exists (String c code). simpl. repeat split.
      * apply Ascii.eqb_neq in Hc. by rewrite Hc.
      * destruct Hs as [-> | (detail & ->)]; [by left | right; by exists detail].
Qed.

Lemma no_colon_first_split s :
  no_colon s = true -> first (split ":" s) = Return s.
Proof.
  induction s as [| c r IH]; simpl; [done |].
  destruct (Ascii.eqb c ":"); simpl; [done |].
  intros H. specialize (IH H).
  destruct (split ":" r) as [| h t]; [discriminate |].
  by injection IH as ->.
Qed.

Lemma kind_table_no_colon code exception :
  dict.lookup kind_table code = Some exception -> no_colon code = true.
Proof.
  unfold kind_table. cbn [dict.lookup].
  repeat (case_eqb code; [reflexivity |]).
  intros H. discriminate H.
Qed.

(** The six names of the kind table are classes of the exceptions module,
    built from the message. *)
Lemma kind_table_getattr code exception :
  dict.lookup kind_table code = Some exception ->
  exists cls, getattr_exceptions (HString code) = Return cls /\
              forall m, cls m = Return (exception m).
Proof.
  unfold kind_table, getattr_exceptions, exceptions. cbn [dict.lookup].
  repeat (case_eqb code; [intros [= <-]; vm_compute; by eauto |]).
  intros H. discriminate H.
Qed.

Section error_mapping.

Variable loads : bytes -> result pyobj.

Lemma _get_error_code_absent (http_response : Response.t) :
  Response.headers http_response !! "x-amzn-errortype" = None ->
  _get_error_code http_response = Return "Unknown".
Proof. intros H. unfold _get_error_code. by rewrite H. Qed.

Lemma _get_error_code_present (http_response : Response.t) value :
  Response.headers http_response !! "x-amzn-errortype" = Some value ->
  _get_error_code http_response = first (split ":" value).
Proof. intros H. unfold _get_error_code. by rewrite H. Qed.

(** [parse_exception] once the error code and the message are known: the
    chain of comparisons is a lookup in the kind table. *)
Lemma parse_exception_lookup (http_response : Response.t) body_bytes error_code error_message :
  _get_error_code http_response = Return error_code ->
  _get_error_message loads body_bytes = Return error_message ->
  parse_exception loads http_response body_bytes =
    match dict.lookup kind_table error_code with
    | Some exception => Return (exception error_message)
    | None =>
        Return (UnknownServiceException
                  (Response.status_code http_response) error_code error_message)
    end.
Proof.
  intros Hcode Hmsg. unfold parse_exception. rewrite Hcode.
  cbn [mbind result_bind]. rewrite Hmsg.
  cbn [mbind result_bind]. unfold kind_table. cbn [dict.lookup].
  rewrite !(String.eqb_sym error_code).
  repeat (case_eqb error_code; [reflexivity |]).
  reflexivity.
Qed.

(** An error of the message extraction is an error of [parse_exception]. *)
Lemma parse_exception_message_raises (http_response : Response.t) body_bytes e :
  _get_error_message loads body_bytes = Raise e ->
  parse_exception loads http_response body_bytes = Raise e.
Proof.
  intros Hmsg. unfold parse_exception, _get_error_code.
  destruct (Response.headers http_response !! "x-amzn-errortype") as [value |]; simpl.
  - destruct (split_cons ":" value) as (h & t & ->). simpl. by rewrite Hmsg.
  - by rewrite Hmsg.
Qed.

(** C4, amended.  For every HTTP response and every body from which a
    message is extracted, [parse_exception] takes the error code from the
    [x-amzn-errortype] header cut at its first colon ("Unknown" without the
    header), looks it up, case-sensitively, in the kind table, and returns
    the exception the code names with the message; a code that is not in the
    table gives [UnknownServiceException] with the status code of the
    response, the code as cut, and the message. *)
Theorem parse_exception_classification
        (http_response : Response.t) body_bytes error_message :
  _get_error_message loads body_bytes = Return error_message ->
  exists error_code,
    match Response.headers http_response !! "x-amzn-errortype" with
    | Some value =>
        no_colon error_code = true /\
        (value = error_code \/ exists detail, value = error_code +:+ ":" +:+ detail)
    | None => error_code = "Unknown"
    end /\
    parse_exception loads http_response body_bytes =
      match dict.lookup kind_table error_code with
      | Some exception => Return (exception error_message)
      | None =>
          Return (UnknownServiceException
                    (Response.status_code http_response) error_code error_message)
      end.
Proof.
  intros Hmsg.
  destruct (Response.headers http_response !! "x-amzn-errortype") as [value |] eqn:Hheader.
  - destruct (first_split_colon value) as (code & Hfirst & Hno & Hvalue).
    exists code. split; [by split |].
    apply parse_exception_lookup; [| done].
    by rewrite (_get_error_code_present _ _ Hheader).
  - exists "Unknown". split; [done |].
    apply parse_exception_lookup; [| done].
    by apply _get_error_code_absent.
Qed.

(** A response without the [x-amzn-errortype] header is an unknown error
    with the code "Unknown", whatever message the body gives. *)
Lemma parse_exception_no_errortype (http_response : Response.t) body_bytes error_message :
  Response.headers http_response !! "x-amzn-errortype" = None ->
  _get_error_message loads body_bytes = Return error_message ->
  parse_exception loads http_response body_bytes =
    Return (UnknownServiceException
              (Response.status_code http_response) "Unknown" error_message).
Proof.
  intros Hheader Hmsg.
  by rewrite (parse_exception_lookup _ _ "Unknown" error_message
                (_get_error_code_absent _ Hheader) Hmsg).
Qed.

(** The message of a body: what [_get_error_message] does on each kind of
    decoded value. *)
Lemma _get_error_message_object body_bytes d :
  loads body_bytes = Return (PyDict d) ->
  _get_error_message loads body_bytes =
    Return (match dict.lookup d "Message" with
            | Some m => m
            | None =>
                match dict.lookup d "message" with
                | Some m => m
                | None => PyStr "An unknown error was returned by the service"
                end
            end).
Proof.
  intros H. unfold _get_error_message. rewrite H. simpl. unfold dict_contains.
  destruct (dict.lookup d "Message"); simpl; [done |].
  by destruct (dict.lookup d "message").
Qed.

Lemma _get_error_message_undecodable body_bytes :
  loads body_bytes = raise JSONDecodeError ->
  _get_error_message loads body_bytes =
    Return (PyStr "An unknown error was returned by the service").
Proof. intros H. unfold _get_error_message. by rewrite H. Qed.

(** A body that decodes to [null], to a number or to a boolean makes the
    test [in] raise. *)
Lemma _get_error_message_not_iterable body_bytes parsed_body :
  loads body_bytes = Return parsed_body ->
  iter parsed_body = raise TypeError ->
  _get_error_message loads body_bytes = raise TypeError.
Proof.
  intros H Hiter. unfold _get_error_message. rewrite H.
  by destruct parsed_body.
Qed.

(** Bytes that are not UTF-8 raise [UnicodeDecodeError], which the handler
    for [JSONDecodeError] lets through. *)
Lemma _get_error_message_not_utf8 body_bytes :
  loads body_bytes = raise UnicodeDecodeError ->
  _get_error_message loads body_bytes = raise UnicodeDecodeError.
Proof. intros H. unfold _get_error_message. by rewrite H. Qed.

End error_mapping.

Lemma parse_exception_classification_witness :
  exists error_code,
    (no_colon error_code = true /\
     ("badrequestexception:detail" = error_code \/
      exists detail, "badrequestexception:detail" = error_code +:+ ":" +:+ detail)) /\
    parse_exception json.loads
                    (response 400 [("x-amzn-errortype", "badrequestexception:detail")])
                    (json.text "{'message':'lower case'}") =
      match dict.lookup kind_table error_code with
      | Some exception => Return (exception (PyStr "lower case"))
      | None => Return (UnknownServiceException 400 error_code (PyStr "lower case"))
      end.
Proof.
  apply (parse_exception_classification json.loads
           (response 400 [("x-amzn-errortype", "badrequestexception:detail")])
           (json.text "{'message':'lower case'}") (PyStr "lower case")).
  vm_compute. reflexivity.
Defined.

(** C4, counterexample.  A code with a detail after a colon that is not in
    the table: the exception carries the code as cut, not the value of the
    header; and a body that decodes to [null] makes [parse_exception] raise
    [TypeError] where an exception was to be returned. *)
Lemma parse_exception_code_is_cut :
  parse_exception json.loads
                  (response 400 [("x-amzn-errortype", "TotallyNovelError:detail")])
                  (json.text "{'Message':'m'}")
    = Return (UnknownServiceException 400 "TotallyNovelError" (PyStr "m")) /\
  parse_exception json.loads
                  (response 400 [("x-amzn-errortype", "BadRequestException")])
                  (json.text "null")
    = Raise (Builtin TypeError).
Proof. split; vm_compute; reflexivity. Qed.

(** C5, failing inputs.  The message extraction raises on a body that is
    JSON but not an object ([null], a number), on a string or a list that
    holds the key, and on bytes that are not UTF-8. *)
Theorem _get_error_message_raises :
  _get_error_message json.loads (json.text "null") = Raise (Builtin TypeError) /\
  _get_error_message json.loads (json.text "1") = Raise (Builtin TypeError) /\
  _get_error_message json.loads (json.text "'Message'") = Raise (Builtin TypeError) /\
  _get_error_message json.loads (json.text "['Message']") = Raise (Builtin TypeError) /\
  _get_error_message json.loads [xff] = Raise (Builtin UnicodeDecodeError).
Proof. repeat split; vm_compute; reflexivity. Qed.

(** C10, failing input.  A response without the [x-amzn-errortype] header
    and a body that decodes to [null]: [parse_exception] raises [TypeError]
    and returns no exception. *)
Theorem parse_exception_no_errortype_raises :
  parse_exception json.loads (response 500 []) (json.text "null")
    = Raise (Builtin TypeError).
Proof. vm_compute. reflexivity. Qed.

(** ** Exceptions in the event stream *)


Section stream_exceptions.

Variable loads : bytes -> result pyobj.

(** The exception [parse] raises is the one [_parse_event_exception]
    returns; an error of [_parse_event_exception] is raised as it is. *)
Lemma parse_raises (raw_event : RawEvent.t) :
  RawEvent.headers raw_event !! ":message-type" = Some (HString "error") \/
  RawEvent.headers raw_event !! ":message-type" = Some (HString "exception") ->
  parse loads raw_event =
    match _parse_event_exception loads raw_event with
    | Return e => Raise (Service e)
    | Raise e => Raise e
    end.
Proof.
  intros [H | H]; unfold parse; rewrite H; by vm_compute.
Qed.

(** The message of an exception frame: the [Message] of an object payload,
    the generic message when the payload has none or does not decode. *)
Lemma _parse_event_exception_message (raw_event : RawEvent.t) name cls msg :
  RawEvent.headers raw_event !! ":exception-type" = Some (HString name) \/
  (RawEvent.headers raw_event !! ":exception-type" = None /\ name = "ServiceException") ->
  getattr_exceptions (HString name) = Return cls ->
  (exists d, loads (RawEvent.payload raw_event) = Return (PyDict d) /\
             msg = dict_get d "Message" (PyStr "An unknown service exception occured")) \/
  (exists e, loads (RawEvent.payload raw_event) = Raise e /\
             except_ValueError e = true /\
             msg = PyStr "An unknown service exception occured") ->
  _parse_event_exception loads raw_event = cls msg.
Proof.
  intros Htype Hcls Hbody. unfold _parse_event_exception.
  assert (default (HString "ServiceException")
                  (RawEvent.headers raw_event !! ":exception-type") = HString name) as ->.
  { destruct Htype as [-> | [-> ->]]; reflexivity. }
  rewrite Hcls. cbn [mbind result_bind].
  destruct Hbody as [(d & -> & ->) | (e & -> & -> & ->)]; reflexivity.
Qed.

(** An exception frame raises what the class named by [:exception-type]
    builds from the message. *)
Lemma parse_raises_class (raw_event : RawEvent.t) name cls msg e :
  RawEvent.headers raw_event !! ":message-type" = Some (HString "error") \/
  RawEvent.headers raw_event !! ":message-type" = Some (HString "exception") ->
  RawEvent.headers raw_event !! ":exception-type" = Some (HString name) \/
  (RawEvent.headers raw_event !! ":exception-type" = None /\ name = "ServiceException") ->
  (exists d, loads (RawEvent.payload raw_event) = Return (PyDict d) /\
             msg = dict_get d "Message" (PyStr "An unknown service exception occured")) \/
  (exists e, loads (RawEvent.payload raw_event) = Raise e /\
             except_ValueError e = true /\
             msg = PyStr "An unknown service exception occured") ->
  getattr_exceptions (HString name) = Return cls ->
  cls msg = Return e ->
  parse loads raw_event = Raise (Service e).
Proof.
  intros Hmsg Htype Hbody Hcls Hcall. rewrite (parse_raises raw_event Hmsg).
  by rewrite (_parse_event_exception_message raw_event name cls msg Htype Hcls Hbody), Hcall.
Qed.


(** C7, amended.  For an error identifier that is one of the six names of
    the kind table and a body that decodes to a JSON object with a [Message]
    key, the HTTP path returns and the stream path raises the same service
    exception: the kind the identifier names, with the [Message] of the body
    as its message. *)
Theorem error_paths_agree (http_response : Response.t) (raw_event : RawEvent.t)
        identifier d :
  Response.headers http_response !! "x-amzn-errortype" = Some identifier ->
  RawEvent.headers raw_event !! ":message-type" = Some (HString "error") \/
  RawEvent.headers raw_event !! ":message-type" = Some (HString "exception") ->
  RawEvent.headers raw_event !! ":exception-type" = Some (HString identifier) ->
  loads (RawEvent.payload raw_event) = Return (PyDict d) ->
  dict_contains d "Message" = true ->
  is_Some (dict.lookup kind_table identifier) ->
  exists exception,
    dict.lookup kind_table identifier = Some exception /\
    parse_exception loads http_response (RawEvent.payload raw_event)
      = Return (exception (field d "Message")) /\
    parse loads raw_event = Raise (Service (exception (field d "Message"))).
Proof.
  intros Hheader Hmsg Htype Hbody Hkey [exception Hkind].
  assert (exists m, dict.lookup d "Message" = Some m) as (m & Hm).
  { unfold dict_contains in Hkey. destruct (dict.lookup d "Message"); [by eauto | done]. }
  assert (field d "Message" = m) as ->.
  { unfold field, dict_get. by rewrite Hm. }
  exists exception. split; [exact Hkind |]. split.
  - rewrite (parse_exception_lookup loads http_response _ identifier m).
    + by rewrite Hkind.
    + rewrite (_get_error_code_present _ _ Hheader).
      apply no_colon_first_split. by apply (kind_table_no_colon identifier exception).
    + rewrite (_get_error_message_object loads _ d Hbody). by rewrite Hm.
  - destruct (kind_table_getattr identifier exception Hkind) as (cls & Hcls & Hcall).
    apply (parse_raises_class raw_event identifier cls m).
    + exact Hmsg.
    + by left.
    + left. exists d. split; [exact Hbody |]. unfold dict_get. by rewrite Hm.
    + exact Hcls.
    + apply Hcall.
Qed.

End stream_exceptions.



(** C7, counterexample.  The identifier "BadRequestException" with the body
    [{}]: the two paths give the same kind and two different messages.  The
    identifier "ServiceException" with a message: the HTTP path returns
    [UnknownServiceException] and the stream raises the base class. *)
Lemma error_paths_differ :
  parse_exception json.loads
                  (response 400 [("x-amzn-errortype", "BadRequestException")])
                  (json.text "{}")
    = Return (BadRequestException (PyStr "An unknown error was returned by the service")) /\
  parse json.loads
        (frame [(":message-type", HString "exception");
                (":exception-type", HString "BadRequestException")] "{}")
    = Raise (Service (BadRequestException (PyStr "An unknown service exception occured"))) /\
  parse_exception json.loads
                  (response 400 [("x-amzn-errortype", "ServiceException")])
                  (json.text "{'Message':'m'}")
    = Return (UnknownServiceException 400 "ServiceException" (PyStr "m")) /\
  parse json.loads
        (frame [(":message-type", HString "exception");
                (":exception-type", HString "ServiceException")] "{'Message':'m'}")
    = Raise (Service (BaseServiceException (PyStr "m"))).
Proof. repeat (split; [vm_compute; reflexivity |]). vm_compute. reflexivity. Qed.

Lemma error_paths_agree_witness :
  exists exception,
    dict.lookup kind_table "LimitExceededException" = Some exception /\
    parse_exception json.loads
                    (response 400 [("x-amzn-errortype", "LimitExceededException")])
                    (json.text "{'Message':'slow down'}")
      = Return (exception (PyStr "slow down")) /\
    parse json.loads
          (frame [(":message-type", HString "exception");
                  (":exception-type", HString "LimitExceededException")]
                 "{'Message':'slow down'}")
      = Raise (Service (exception (PyStr "slow down"))).
Proof.
  refine (error_paths_agree json.loads
            (response 400 [("x-amzn-errortype", "LimitExceededException")])
            (frame [(":message-type", HString "exception");
                    (":exception-type", HString "LimitExceededException")]
                   "{'Message':'slow down'}")
            "LimitExceededException" [("Message", PyStr "slow down")] _ _ _ _ _ _).
  - reflexivity.
  - right. reflexivity.
  - reflexivity.
  - vm_compute. reflexivity.
  - reflexivity.
  - eexists. reflexivity.
Defined.

(** ** Null tolerance of the nested parsers *)


Lemma get_object d key : get (PyDict d) key = Return (field d key).
Proof. reflexivity. Qed.

Lemma is_object_inv node : is_object node = true -> exists d, node = PyDict d.
Proof. destruct node; try discriminate. by eauto. Qed.

(** A comprehension over a list whose elements all parse gives a list of
    the same length. *)
Lemma mapM_returns {A} (f : pyobj -> result A) (shape : pyobj -> bool) l :
  (forall x, shape x = true -> returns (f x)) ->
  forallb shape l = true ->
  exists ys, mapM f l = Return ys /\ length ys = length l.
Proof.
  intros Hf. induction l as [| x l IH]; simpl.
  - intros _. by exists [].
  - intros H. apply andb_true_iff in H as [Hx Hl].
    destruct (Hf x Hx) as (y & ->). destruct (IH Hl) as (ys & -> & Hlen).
    exists (y :: ys). simpl. by rewrite Hlen.
Qed.



Lemma _parse_item_returns node : is_object node = true -> returns (_parse_item node).
Proof. intros (d & ->)%is_object_inv. by eexists. Qed.



















(** ** More on the dispatch *)

Section dispatch_facts.

Variable loads : bytes -> result pyobj.

Lemma header_in_exception value :
  header_in value ["error"; "exception"] = true <->
  value = Some (HString "error") \/ value = Some (HString "exception").
Proof.
  unfold header_in. cbn [existsb]. rewrite orb_false_r, orb_true_iff.
  by rewrite !header_eq_true.
Qed.

(** X1.  An "error" or "exception" frame is never turned into a value:
    whatever its other headers and its payload, [parse] raises. *)
Theorem parse_exception_frame_never_returns (raw_event : RawEvent.t) :
  RawEvent.headers raw_event !! ":message-type" = Some (HString "error") \/
  RawEvent.headers raw_event !! ":message-type" = Some (HString "exception") ->
  exists e, parse loads raw_event = Raise e.
Proof.
  intros Hmsg. rewrite (parse_raises loads raw_event Hmsg).
  destruct (_parse_event_exception loads raw_event); by eauto.
Qed.

(** X2.  When [parse] returns an event, the frame is an "event" frame whose
    payload decoded, the event is of the class its [:event-type] names, and
    it is what the parser of that class returns on the decoded payload. *)
Theorem parse_event_sound (raw_event : RawEvent.t) event :
  parse loads raw_event = Return (Some event) ->
  RawEvent.headers raw_event !! ":message-type" = Some (HString "event") /\
  exists raw_body,
    loads (RawEvent.payload raw_event) = Return raw_body /\
    match event with
    | Transcript_event e =>
        RawEvent.headers raw_event !! ":event-type" = Some (HString "TranscriptEvent") /\
        _parse_transcript_event raw_body = Return e
    | Utterance_event e =>
        RawEvent.headers raw_event !! ":event-type" = Some (HString "UtteranceEvent") /\
        _parse_utterance_event raw_body = Return e
    | Category_event e =>
        RawEvent.headers raw_event !! ":event-type" = Some (HString "CategoryEvent") /\
        _parse_category_event raw_body = Return e
    end.
Proof.
  unfold parse.
  destruct (header_in (RawEvent.headers raw_event !! ":message-type")
                      ["error"; "exception"]).
  { destruct (_parse_event_exception loads raw_event); discriminate. }
  destruct (header_eq (RawEvent.headers raw_event !! ":message-type") "event") eqn:Hmsg;
    [| discriminate].
  apply header_eq_true in Hmsg. split; [exact Hmsg |].
  destruct (loads (RawEvent.payload raw_event)) as [raw_body | e]; [| discriminate].
  exists raw_body. split; [reflexivity |]. cbn [mbind result_bind] in H.
  destruct (header_eq (RawEvent.headers raw_event !! ":event-type") "TranscriptEvent")
    eqn:H1.
  { apply header_eq_true in H1.
    destruct (_parse_transcript_event raw_body); [| discriminate].
    injection H as <-. by split. }
  destruct (header_eq (RawEvent.headers raw_event !! ":event-type") "UtteranceEvent")
    eqn:H2.
  { apply header_eq_true in H2.
    destruct (_parse_utterance_event raw_body); [| discriminate].
    injection H as <-. by split. }
  destruct (header_eq (RawEvent.headers raw_event !! ":event-type") "CategoryEvent")
    eqn:H3.
  { apply header_eq_true in H3.
    destruct (_parse_category_event raw_body); [| discriminate].
    injection H as <-. by split. }
  discriminate.
Qed.

(** X3.  On an "event" frame an error of [json.loads] on the payload is the
    error of [parse], whatever the event type. *)
Theorem parse_event_undecodable (raw_event : RawEvent.t) e :
  RawEvent.headers raw_event !! ":message-type" = Some (HString "event") ->
  loads (RawEvent.payload raw_event) = Raise e ->
  parse loads raw_event = Raise e.
Proof.
  intros Hmsg Hbody. unfold parse. rewrite Hmsg, Hbody.
  change (header_in (Some (HString "event")) ["error"; "exception"]) with false.
  change (header_eq (Some (HString "event")) "event") with true.
  reflexivity.
Qed.

(** X4.  [parse] returns [None] exactly in two cases: the message type is
    none of "error", "exception" and "event"; or it is "event", the event
    type is none of the three that are known, and the payload decodes. *)
Theorem parse_returns_None_iff (raw_event : RawEvent.t) :
  parse loads raw_event = Return None <->
  header_in (RawEvent.headers raw_event !! ":message-type")
            ["error"; "exception"; "event"] = false \/
  (RawEvent.headers raw_event !! ":message-type" = Some (HString "event") /\
   header_in (RawEvent.headers raw_event !! ":event-type")
             ["TranscriptEvent"; "UtteranceEvent"; "CategoryEvent"] = false /\
   exists raw_body, loads (RawEvent.payload raw_event) = Return raw_body).
Proof.
  unfold parse, header_in. cbn [existsb]. rewrite !orb_false_r.
  destruct (header_eq (RawEvent.headers raw_event !! ":message-type") "error") eqn:Herror.
  { cbn [orb]. split.
    - destruct (_parse_event_exception loads raw_event); discriminate.
    - intros [H | (H & _)]; [discriminate H |].
      rewrite H in Herror. discriminate Herror. }
  destruct (header_eq (RawEvent.headers raw_event !! ":message-type") "exception")
    eqn:Hexception.
  { cbn [orb]. split.
    - destruct (_parse_event_exception loads raw_event); discriminate.
    - intros [H | (H & _)]; [discriminate H |].
      rewrite H in Hexception. discriminate Hexception. }
  cbn [orb].
  destruct (header_eq (RawEvent.headers raw_event !! ":message-type") "event") eqn:Hevent.
  - apply header_eq_true in Hevent. split.
    + intros H. right. split; [exact Hevent |].
      destruct (loads (RawEvent.payload raw_event)) as [raw_body | e]; [| discriminate].
      cbn [mbind result_bind] in H.
      destruct (header_eq (RawEvent.headers raw_event !! ":event-type") "TranscriptEvent").
      { destruct (_parse_transcript_event raw_body); discriminate. }
      destruct (header_eq (RawEvent.headers raw_event !! ":event-type") "UtteranceEvent").
      { destruct (_parse_utterance_event raw_body); discriminate. }
      destruct (header_eq (RawEvent.headers raw_event !! ":event-type") "CategoryEvent").
      { destruct (_parse_category_event raw_body); discriminate. }
      split; [reflexivity | by eauto].
    + intros [H | (_ & Htype & raw_body & Hbody)]; [discriminate H |].
      rewrite Hbody. cbn [mbind result_bind].
      apply orb_false_iff in Htype as [H1 Htype].
      apply orb_false_iff in Htype as [H2 H3].
      by rewrite H1, H2, H3.
  - split; [by left |]. reflexivity.
Qed.

End dispatch_facts.

Lemma parse_exception_frame_never_returns_witness :
  exists e,
    parse json.loads
          (frame [(":message-type", HString "error");
                  (":exception-type", HInteger 7)] "[1, 2") = Raise e.
Proof.
  apply parse_exception_frame_never_returns. left. reflexivity.
Defined.

Lemma parse_event_sound_witness :
  RawEvent.headers
    (frame [(":message-type", HString "event");
            (":event-type", HString "CategoryEvent")]
           "{'MatchedCategories':['late'],'MatchedDetails':{}}")
    !! ":message-type" = Some (HString "event") /\
  exists raw_body,
    json.loads (json.text "{'MatchedCategories':['late'],'MatchedDetails':{}}")
      = Return raw_body /\
    _parse_category_event raw_body = Return (CategoryEvent.mk [PyStr "late"] []).
Proof.
  destruct (parse_event_sound json.loads
              (frame [(":message-type", HString "event");
                      (":event-type", HString "CategoryEvent")]
                     "{'MatchedCategories':['late'],'MatchedDetails':{}}")
              (Category_event (CategoryEvent.mk [PyStr "late"] [])))
    as (Hmsg & raw_body & Hbody & _ & Hparse).
  - vm_compute. reflexivity.
  - split; [exact Hmsg |]. exists raw_body. by split.
Defined.

Lemma parse_event_undecodable_witness :
  parse json.loads
        (frame [(":message-type", HString "event");
                (":event-type", HString "TranscriptEvent")] "{'Transcript':")
  = Raise (Builtin JSONDecodeError).
Proof.
  apply parse_event_undecodable; [reflexivity | vm_compute; reflexivity].
Defined.

(** ** Lists of nodes *)

Lemma mapM_Return_iff {A} (f : pyobj -> result A) l ys :
  mapM f l = Return ys <-> Forall2 (fun x y => f x = Return y) l ys.
Proof.
  revert ys. induction l as [| x l IH]; intros ys; simpl.
  - split.
    + intros [= <-]. constructor.
    + intros H. by inversion H.
  - split.
    + destruct (f x) as [y |] eqn:Hx; [| discriminate]. cbn [mbind result_bind].
      destruct (mapM f l) as [ys' |] eqn:Hl; [| discriminate]. cbn [mbind result_bind].
      intros [= <-]. constructor; [exact Hx | by apply IH].
    + intros H. inversion H as [| ? y ? ys' Hx Hl]; subst.
      rewrite Hx. cbn [mbind result_bind].
      apply IH in Hl. rewrite Hl. reflexivity.
Qed.

Lemma mapM_first_error {A} (f : pyobj -> result A) before node after e :
  Forall (fun x => returns (f x)) before ->
  f node = Raise e ->
  mapM f (before ++ node :: after) = Raise e.
Proof.
  intros Hbefore Hnode. induction Hbefore as [| x l (y & Hx) _ IH]; simpl.
  - by rewrite Hnode.
  - rewrite Hx. cbn [mbind result_bind]. by rewrite IH.
Qed.

Lemma _parse_item_not_object node :
  is_object node = false -> _parse_item node = raise AttributeError.
Proof. by destruct node. Qed.

Lemma mapM__parse_item_not_objects l :
  forallb is_object l = false -> mapM _parse_item l = raise AttributeError.
Proof.
  induction l as [| x l IH]; simpl; [discriminate |].
  destruct (is_object x) eqn:Hx; simpl.
  - intros Hl. destruct (_parse_item_returns x Hx) as (y & ->).
    cbn [mbind result_bind]. by rewrite (IH Hl).
  - intros _. by rewrite (_parse_item_not_object x Hx).
Qed.

(** X5.  The transcript of an object whose [Results] is a list: the parse
    returns exactly when every element parses as a result, and the results
    are those of the elements, one for one and in the order of the
    payload. *)
Theorem _parse_transcript_results d l transcript :
  field d "Results" = PyList l ->
  _parse_transcript (PyDict d) = Return transcript <->
  Forall2 (fun node r => _parse_result node = Return r) l (Transcript.results transcript).
Proof.
  intros Hresults. unfold _parse_transcript, _parse_result_list, comprehension.
  rewrite get_object, Hresults. cbn [mbind result_bind iter].
  rewrite <- mapM_Return_iff. destruct transcript as [results].
  cbn [Transcript.results].
  destruct (mapM _parse_result l) as [ys |]; cbn [mbind result_bind]; split;
    try discriminate; by intros [= ->].
Qed.

(** X6.  The items of an alternative, for every node: a node that cannot be
    iterated raises the error of the iteration ([TypeError]); an element
    that is not an object raises [AttributeError]; otherwise there are as
    many items as elements.  No other error is raised. *)
Theorem _parse_item_list_cases node :
  match iter node with
  | Raise e => _parse_item_list node = Raise e
  | Return l =>
      if forallb is_object l
      then exists items, _parse_item_list node = Return items /\ length items = length l
      else _parse_item_list node = raise AttributeError
  end.
Proof.
  unfold _parse_item_list, comprehension.
  destruct (iter node) as [l | e]; cbn [mbind result_bind]; [| reflexivity].
  destruct (forallb is_object l) eqn:Hl.
  - by apply (mapM_returns _parse_item is_object l _parse_item_returns).
  - by apply mapM__parse_item_not_objects.
Qed.

(** X7.  In a list of results the error of the first element that does not
    parse is the error of the list: the elements after it are not looked
    at. *)
Theorem _parse_result_list_first_error before node after e :
  Forall (fun x => returns (_parse_result x)) before ->
  _parse_result node = Raise e ->
  _parse_result_list (PyList (before ++ node :: after)) = Raise e.
Proof.
  intros Hbefore Hnode. unfold _parse_result_list, comprehension.
  cbn [mbind result_bind iter]. by apply mapM_first_error.
Qed.

Lemma _parse_transcript_results_witness :
  _parse_transcript (PyDict [("Results", PyList [PyDict [("ResultId", PyStr "r1")]])])
    = Return (Transcript.mk
                [Result.mk (PyStr "r1") PyNone PyNone PyNone None PyNone PyNone None]).
Proof.
  apply (_parse_transcript_results
           [("Results", PyList [PyDict [("ResultId", PyStr "r1")]])]
           [PyDict [("ResultId", PyStr "r1")]]); [reflexivity |].
  repeat constructor.
Defined.

Lemma _parse_result_list_first_error_witness :
  _parse_result_list (PyList [PyDict []; PyInt 3; PyStr "never read"])
    = Raise (Builtin AttributeError).
Proof.
  apply (_parse_result_list_first_error [PyDict []] (PyInt 3) [PyStr "never read"]).
  - constructor; [by eexists | constructor].
  - reflexivity.
Defined.

(** ** Objects are read through their keys *)

(** X8.  The parsers read an object only through the values of its keys:
    two objects that give the same value for every key, a missing key
    counting as [null], parse alike.  So the order of the keys does not
    matter, and a key with the value [null] is the same as no key. *)
Theorem parsers_read_fields d1 d2 :
  (forall key, field d1 key = field d2 key) ->
  _parse_item (PyDict d1) = _parse_item (PyDict d2) /\
  _parse_entity (PyDict d1) = _parse_entity (PyDict d2) /\
  _parse_alternative (PyDict d1) = _parse_alternative (PyDict d2) /\
  _parse_result (PyDict d1) = _parse_result (PyDict d2) /\
  _parse_transcript_event (PyDict d1) = _parse_transcript_event (PyDict d2) /\
  _parse_utterance_event (PyDict d1) = _parse_utterance_event (PyDict d2) /\
  _parse_category_event (PyDict d1) = _parse_category_event (PyDict d2).
Proof.
  intros H.
  unfold _parse_item, _parse_entity, _parse_alternative, _parse_result,
    _parse_transcript_event, _parse_utterance_event, _parse_category_event.
  rewrite !get_object, !H. by repeat split.
Qed.

Lemma parsers_read_fields_witness :
  _parse_result (PyDict [("Alternatives", PyNone); ("ResultId", PyStr "r1")])
    = _parse_result (PyDict [("ResultId", PyStr "r1")]).
Proof.
  refine (proj1 (proj2 (proj2 (proj2
            (parsers_read_fields
               [("Alternatives", PyNone); ("ResultId", PyStr "r1")]
               [("ResultId", PyStr "r1")] _))))).
  intros key. unfold field, dict_get. cbn [dict.lookup].
  destruct (String.eqb_spec "Alternatives" key) as [<- | _]; reflexivity.
Defined.

(** ** The details of the matched categories *)

Lemma lookup_None_keys {V} (d : list (string * V)) key :
  dict.lookup d key = None <-> key ∉ dict.keys d.
Proof.
  induction d as [| [k v] d IH]; simpl.
  - split; [intros _; apply not_elem_of_nil | done].
  - rewrite not_elem_of_cons. destruct (String.eqb_spec k key) as [-> | Hk].
    + split; [discriminate | by intros [? _]].
    + rewrite IH. split; [by intros ?; split | by intros [_ ?]].
Qed.

Lemma setitem_fresh {V} (d : list (string * V)) key v :
  dict.lookup d key = None -> dict.setitem d key v = d ++ [(key, v)].
Proof.
  induction d as [| [k w] d IH]; simpl; [done |].
  destruct (String.eqb k key); [discriminate |].
  intros H. by rewrite (IH H).
Qed.

Lemma keys_app {V} (d1 d2 : list (string * V)) :
  dict.keys (d1 ++ d2) = dict.keys d1 ++ dict.keys d2.
Proof. unfold dict.keys. apply map_app. Qed.

Lemma matched_details_loop_Return kvs matched_details r :
  NoDup (dict.keys matched_details ++ dict.keys kvs) ->
  matched_details_loop kvs matched_details = Return r <->
  exists rest,
    r = matched_details ++ rest /\
    Forall2 (fun kv kp => kp.1 = kv.1 /\ _parse_points_of_interest kv.2 = Return kp.2)
            kvs rest.
Proof.
  revert matched_details.
  induction kvs as [| [key value] kvs IH]; intros acc Hnodup; simpl.
  - split.
    + intros [= <-]. exists []. split; [by rewrite app_nil_r | constructor].
    + intros (rest & -> & H). inversion H. by rewrite app_nil_r.
  - assert (dict.lookup acc key = None) as Hfresh.
    { apply lookup_None_keys. apply NoDup_app in Hnodup as (_ & Hdisjoint & _).
      intros Hin. apply (Hdisjoint key Hin). simpl. by left. }
    assert (forall poi, NoDup (dict.keys (acc ++ [(key, poi)]) ++ dict.keys kvs)) as Hnext.
    { intros poi. rewrite keys_app. simpl. by rewrite <- app_assoc. }
    split.
    + destruct (_parse_points_of_interest value) as [poi |] eqn:Hvalue; [| discriminate].
      cbn [mbind result_bind]. rewrite (setitem_fresh acc key poi Hfresh).
      intros H. apply (IH _ (Hnext poi)) in H as (rest & -> & Hrest).
      exists ((key, poi) :: rest). split; [by rewrite <- app_assoc |].
      by constructor.
    + intros (rest & -> & H).
      inversion H as [| ? [key' poi] ? rest' [Hkey Hvalue] Hrest]; subst.
      simpl in Hkey, Hvalue. subst key'. rewrite Hvalue. cbn [mbind result_bind].
      rewrite (setitem_fresh acc key poi Hfresh).
      apply (IH _ (Hnext poi)). exists rest'. split; [by rewrite <- app_assoc | done].
Qed.

(** X9.  The details of a category event, for an object without a repeated
    key: the parse returns a mapping exactly when every value parses as
    points of interest, and the mapping has the keys of the object, all of
    them and in their order, each with the points of interest of its
    value. *)
Theorem _parse_matched_details_dict_keys d matched_details :
  NoDup (dict.keys d) ->
  _parse_matched_details_dict (PyDict d) = Return matched_details <->
  Forall2 (fun kv kp => kp.1 = kv.1 /\ _parse_points_of_interest kv.2 = Return kp.2)
          d matched_details.
Proof.
  intros Hnodup. unfold _parse_matched_details_dict. cbn [items mbind result_bind].
  rewrite (matched_details_loop_Return d [] matched_details Hnodup).
  split.
  - by intros (rest & -> & H).
  - intros H. by exists matched_details.
Qed.

Lemma _parse_matched_details_dict_keys_witness :
  _parse_matched_details_dict
    (PyDict [("late", PyDict [("TimestampRanges", PyList [])]);
             ("rude", PyDict [("TimestampRanges",
                               PyList [PyDict [("BeginOffsetMillis", PyInt 5)]])])])
  = Return [("late", PointsOfInterest.mk []);
            ("rude", PointsOfInterest.mk [TimestampRange.mk (PyInt 5) PyNone])].
Proof.
  apply _parse_matched_details_dict_keys.
  - unfold dict.keys. simpl. apply NoDup_cons. split.
    + rewrite list_elem_of_singleton. discriminate.
    + apply NoDup_singleton.
  - repeat constructor.
Defined.

(** ** More on the mapping of errors *)

Section error_mapping_facts.

Variable loads : bytes -> result pyobj.

(** X10.  The message of an error body.  When the body decodes to a JSON
    object, the message is the value of [Message] if the object has the key,
    else the value of [message] if it has that one, else the generic
    message; [Message] wins over [message], and the value is taken as it is,
    string or not.  When [json.loads] raises [JSONDecodeError], the message
    is the generic one. *)
Theorem _get_error_message_of_body body_bytes :
  (forall d, loads body_bytes = Return (PyDict d) ->
             _get_error_message loads body_bytes =
               Return (match dict.lookup d "Message" with
                       | Some m => m
                       | None =>
                           match dict.lookup d "message" with
                           | Some m => m
                           | None => PyStr "An unknown error was returned by the service"
                           end
                       end)) /\
  (loads body_bytes = raise JSONDecodeError ->
   _get_error_message loads body_bytes =
     Return (PyStr "An unknown error was returned by the service")).
Proof.
  split.
  - intros d. apply _get_error_message_object.
  - apply _get_error_message_undecodable.
Qed.

(** X11.  A response without the [x-amzn-errortype] header, and a body from
    which a message is extracted: [parse_exception] returns
    [UnknownServiceException] with the status code of the response, the
    error code "Unknown" and the message. *)
Theorem parse_exception_without_errortype
        (http_response : Response.t) body_bytes error_message :
  Response.headers http_response !! "x-amzn-errortype" = None ->
  _get_error_message loads body_bytes = Return error_message ->
  parse_exception loads http_response body_bytes =
    Return (UnknownServiceException
              (Response.status_code http_response) "Unknown" error_message).
Proof. apply parse_exception_no_errortype. Qed.

(** X12.  The status code of the response plays no part in the
    classification: two responses with the same headers give, on the same
    body, exceptions of the same kind with the same message, or the same
    error. *)
Theorem parse_exception_status_irrelevant (r1 r2 : Response.t) body_bytes :
  Response.headers r1 = Response.headers r2 ->
  (fun e => (kind_of e, message_of e)) <$> parse_exception loads r1 body_bytes =
  (fun e => (kind_of e, message_of e)) <$> parse_exception loads r2 body_bytes.
Proof.
  intros Hheaders. unfold parse_exception, _get_error_code. rewrite Hheaders.
  destruct (Response.headers r2 !! "x-amzn-errortype") as [value |].
  - destruct (first (split ":" value)) as [code |]; [| reflexivity].
    cbn [mbind result_bind].
    destruct (_get_error_message loads body_bytes) as [m |]; [| reflexivity].
    cbn [mbind result_bind]. rewrite !(String.eqb_sym code).
    repeat (case_eqb code; [reflexivity |]). reflexivity.
  - cbn [mbind result_bind].
    destruct (_get_error_message loads body_bytes) as [m |]; reflexivity.
Qed.

End error_mapping_facts.

Lemma _get_error_message_of_body_witness :
  _get_error_message json.loads (json.text "{'message':'low','Message':7}")
    = Return (PyInt 7).
Proof.
  apply (proj1 (_get_error_message_of_body json.loads
                  (json.text "{'message':'low','Message':7}"))
               [("message", PyStr "low"); ("Message", PyInt 7)]).
  vm_compute. reflexivity.
Defined.

Lemma parse_exception_without_errortype_witness :
  parse_exception json.loads (response 503 [("content-type", "text/html")])
                  (json.text "<html>")
  = Return (UnknownServiceException
              503 "Unknown" (PyStr "An unknown error was returned by the service")).
Proof.
  apply (parse_exception_without_errortype json.loads
           (response 503 [("content-type", "text/html")]) (json.text "<html>")).
  - reflexivity.
  - vm_compute. reflexivity.
Defined.

Lemma parse_exception_status_irrelevant_witness :
  (fun e => (kind_of e, message_of e)) <$>
    parse_exception json.loads (response 400 [("x-amzn-errortype", "Throttled")])
                    (json.text "{'Message':'m'}") =
  (fun e => (kind_of e, message_of e)) <$>
    parse_exception json.loads (response 500 [("x-amzn-errortype", "Throttled")])
                    (json.text "{'Message':'m'}").
Proof.
  apply parse_exception_status_irrelevant. reflexivity.
Defined.

(** ** The JSON of the configuration event *)

(** X13.  The JSON of the post-call analytics settings is an object without
    a repeated key.  It always has [OutputLocation] and [DataAccessRoleArn];
    it has [OutputEncryptionKMSKeyId] and [ContentRedactionOutput] exactly
    when the attribute is not [None], so an optional setting is left out and
    never sent as [null]; and it has no other key. *)
Theorem PostCallAnalyticsSettings_json (self : PostCallAnalyticsSettings.t) :
  exists d,
    PostCallAnalyticsSettings.__json__ self = PyDict d /\
    NoDup (dict.keys d) /\
    dict.lookup d "OutputLocation" = Some (PostCallAnalyticsSettings.output_location self) /\
    dict.lookup d "DataAccessRoleArn"
      = Some (PostCallAnalyticsSettings.data_access_role_arn self) /\
    dict.lookup d "OutputEncryptionKMSKeyId"
      = (if is_not_None (PostCallAnalyticsSettings.output_encryption_kms_key_id self)
         then Some (PostCallAnalyticsSettings.output_encryption_kms_key_id self)
         else None) /\
    dict.lookup d "ContentRedactionOutput"
      = (if is_not_None (PostCallAnalyticsSettings.content_redaction_output self)
         then Some (PostCallAnalyticsSettings.content_redaction_output self)
         else None) /\
    (forall key, is_Some (dict.lookup d key) ->
                 key ∈ ["OutputLocation"; "DataAccessRoleArn";
                        "OutputEncryptionKMSKeyId"; "ContentRedactionOutput"]).
Proof.
  destruct self as [location role kms redaction].
  unfold PostCallAnalyticsSettings.__json__.
  cbn [PostCallAnalyticsSettings.output_location
       PostCallAnalyticsSettings.data_access_role_arn
       PostCallAnalyticsSettings.output_encryption_kms_key_id
       PostCallAnalyticsSettings.content_redaction_output].
  destruct (is_not_None kms); destruct (is_not_None redaction);
    (eexists; split; [reflexivity |];
     split; [apply (bool_decide_unpack _); vm_compute; exact I |];
     split; [reflexivity |]; split; [reflexivity |];
     split; [reflexivity |]; split; [reflexivity |];
     intros key; vm_compute dict.setitem; cbn [dict.lookup];
     repeat (case_eqb key; [intros _; set_solver |]);
     by intros [? ?]).
Qed.

(** X14.  The JSON of a configuration event is an object whose
    [ChannelDefinitions] is a list with one object for each channel
    definition, in their order, from which the channel and the role are read
    back; it has [PostCallAnalyticsSettings], the JSON of the settings,
    exactly when settings are given. *)
Theorem ConfigurationEvent_json (self : ConfigurationEvent.t) :
  exists d l,
    ConfigurationEvent.__json__ self = PyDict d /\
    dict.lookup d "ChannelDefinitions" = Some (PyList l) /\
    length l = length (ConfigurationEvent.channel_definitions self) /\
    (forall i c,
        ConfigurationEvent.channel_definitions self !! i = Some c ->
        exists node,
          l !! i = Some node /\
          get node "ChannelId" = Return (ChannelDefinition.channel_id c) /\
          get node "ParticipantRole" = Return (ChannelDefinition.participant_role c)) /\
    dict.lookup d "PostCallAnalyticsSettings"
      = PostCallAnalyticsSettings.__json__
          <$> ConfigurationEvent.post_call_analytics_settings self.
Proof.
  destruct self as [definitions settings].
  unfold ConfigurationEvent.__json__.
  cbn [ConfigurationEvent.channel_definitions
       ConfigurationEvent.post_call_analytics_settings].
  assert (forall i c, definitions !! i = Some c ->
            exists node,
              map ChannelDefinition.__json__ definitions !! i = Some node /\
              get node "ChannelId" = Return (ChannelDefinition.channel_id c) /\
              get node "ParticipantRole" = Return (ChannelDefinition.participant_role c))
    as Hread.
  { intros i c Hc. exists (ChannelDefinition.__json__ c).
    split; [| by split].
    change (map ChannelDefinition.__json__ definitions)
      with (ChannelDefinition.__json__ <$> definitions).
    by rewrite list_lookup_fmap, Hc. }
  destruct settings as [settings |];
    eexists; exists (map ChannelDefinition.__json__ definitions);
    (split; [reflexivity |]); (split; [reflexivity |]);
    (split; [apply length_map |]); (split; [exact Hread | reflexivity]).
Qed.

(** ** Audio events from chunks *)

(** X15.  An audio event made from a chunk and then serialized: the payload
    is the chunk, the empty payload when there is no chunk, and the headers
    do not depend on the chunk.  Both serializers agree. *)
Theorem serialize_audio_chunk (audio_chunk : option bytes) :
  (amazon_transcribe.AudioEventSerializer.serialize (AudioEvent.init audio_chunk)).2
    = default [] audio_chunk /\
  transcribe.AudioEventSerializer.serialize (AudioEvent.init audio_chunk)
    = amazon_transcribe.AudioEventSerializer.serialize (AudioEvent.init audio_chunk) /\
  (amazon_transcribe.AudioEventSerializer.serialize (AudioEvent.init audio_chunk)).1
    = (amazon_transcribe.AudioEventSerializer.serialize (AudioEvent.init None)).1.
Proof. by destruct audio_chunk. Qed.

(** ** The response of the start of a stream *)

Section response_facts.

Variable Stream : Type.
Variable int : string -> result Z.
Variable ensure_boolean : string -> result bool.

Lemma _raw_value_to_bool_raises value e :
  _raw_value_to_bool ensure_boolean value = Raise e ->
  exists s, value = Some s /\ ensure_boolean s = Raise e.
Proof.
  destruct value as [s |]; [| discriminate]. unfold _raw_value_to_bool.
  destruct (ensure_boolean s) eqn:Hs; [discriminate |].
  intros [= <-]. by exists s.
Qed.

Lemma _raw_value_to_int_raises value e :
  _raw_value_to_int int value = Raise e ->
  exists s, value = Some s /\ s <> "" /\ int s = Raise e.
Proof.
  destruct value as [[| c r] |]; try discriminate. unfold _raw_value_to_int.
  destruct (int (String c r)) eqn:Hs; [discriminate |].
  intros [= <-]. by exists (String c r).
Qed.

(** X16.  The parse of the response of a stream fails only on a header that
    is there: a value of one of the three boolean headers on which
    [ensure_boolean] raises, or a value other than the empty str of one of
    the two numeric headers on which [int] raises.  A header that is missing
    never makes it fail, and neither does an empty numeric header. *)
Theorem parse_start_stream_transcription_response_raises
        (http_response : Response.t) (body_stream : Stream) e :
  parse_start_stream_transcription_response Stream int ensure_boolean
                                            http_response body_stream = Raise e ->
  exists name value,
    Response.headers http_response !! name = Some value /\
    ((name ∈ ["x-amzn-transcribe-show-speaker-label";
              "x-amzn-transcribe-enable-channel-identification";
              "x-amzn-transcribe-enable-partial-results-stabilization"] /\
      ensure_boolean value = Raise e) \/
     (name ∈ ["x-amzn-transcribe-number-of-channels"; "x-amzn-transcribe-sample-rate"] /\
      value <> "" /\ int value = Raise e)).
Proof.
  unfold parse_start_stream_transcription_response.
  destruct (_raw_value_to_bool ensure_boolean
              (Response.headers http_response !! "x-amzn-transcribe-show-speaker-label"))
    eqn:H1; cbn [mbind result_bind].
  2: { intros [= <-]. apply _raw_value_to_bool_raises in H1 as (s & Hs & He).
       exists "x-amzn-transcribe-show-speaker-label", s.
       split; [exact Hs | left]. split; [set_solver | exact He]. }
  destruct (_raw_value_to_bool ensure_boolean
              (Response.headers http_response
                 !! "x-amzn-transcribe-enable-channel-identification"))
    eqn:H2; cbn [mbind result_bind].
  2: { intros [= <-]. apply _raw_value_to_bool_raises in H2 as (s & Hs & He).
       exists "x-amzn-transcribe-enable-channel-identification", s.
       split; [exact Hs | left]. split; [set_solver | exact He]. }
  destruct (_raw_value_to_int int
              (Response.headers http_response !! "x-amzn-transcribe-number-of-channels"))
    eqn:H3; cbn [mbind result_bind].
  2: { intros [= <-]. apply _raw_value_to_int_raises in H3 as (s & Hs & Hne & He).
       exists "x-amzn-transcribe-number-of-channels", s.
       split; [exact Hs | right]. split; [set_solver | by split]. }
  destruct (_raw_value_to_int int
              (Response.headers http_response !! "x-amzn-transcribe-sample-rate"))
    eqn:H4; cbn [mbind result_bind].
  2: { intros [= <-]. apply _raw_value_to_int_raises in H4 as (s & Hs & Hne & He).
       exists "x-amzn-transcribe-sample-rate", s.
       split; [exact Hs | right]. split; [set_solver | by split]. }
  destruct (_raw_value_to_bool ensure_boolean
              (Response.headers http_response
                 !! "x-amzn-transcribe-enable-partial-results-stabilization"))
    eqn:H5; cbn [mbind result_bind].
  2: { intros [= <-]. apply _raw_value_to_bool_raises in H5 as (s & Hs & He).
       exists "x-amzn-transcribe-enable-partial-results-stabilization", s.
       split; [exact Hs | left]. split; [set_solver | exact He]. }
  discriminate.
Qed.

(** X17.  The parse of the response of a call analytics stream converts two
    headers only: it fails only on a value other than the empty str of the
    sample rate on which [int] raises, or on a value of the partial results
    stabilization header on which [ensure_boolean] raises. *)
Theorem parse_start_call_analytics_stream_transcription_response_raises
        (http_response : Response.t) (body_stream : Stream) e :
  parse_start_call_analytics_stream_transcription_response
    Stream int ensure_boolean http_response body_stream = Raise e ->
  (exists value,
      Response.headers http_response !! "x-amzn-transcribe-sample-rate" = Some value /\
      value <> "" /\ int value = Raise e) \/
  (exists value,
      Response.headers http_response
        !! "x-amzn-transcribe-enable-partial-results-stabilization" = Some value /\
      ensure_boolean value = Raise e).
Proof.
  unfold parse_start_call_analytics_stream_transcription_response.
  destruct (_raw_value_to_int int
              (Response.headers http_response !! "x-amzn-transcribe-sample-rate"))
    eqn:H1; cbn [mbind result_bind].
  2: { intros [= <-]. left. by apply _raw_value_to_int_raises. }
  destruct (_raw_value_to_bool ensure_boolean
              (Response.headers http_response
                 !! "x-amzn-transcribe-enable-partial-results-stabilization"))
    eqn:H2; cbn [mbind result_bind].
  2: { intros [= <-]. right. by apply _raw_value_to_bool_raises. }
  discriminate.
Qed.

End response_facts.

Lemma parse_start_stream_transcription_response_raises_witness :
  exists name value,
    Response.headers (response 200 [("x-amzn-transcribe-number-of-channels", "two");
                                    ("x-amzn-transcribe-sample-rate", "")])
      !! name = Some value /\
    ((name ∈ ["x-amzn-transcribe-show-speaker-label";
              "x-amzn-transcribe-enable-channel-identification";
              "x-amzn-transcribe-enable-partial-results-stabilization"] /\
      (fun _ : string => Return true) value = Raise (Builtin ValueError)) \/
     (name ∈ ["x-amzn-transcribe-number-of-channels"; "x-amzn-transcribe-sample-rate"] /\
      value <> "" /\
      (fun s : string => if String.eqb s "2" then Return 2%Z else raise ValueError) value
        = Raise (Builtin ValueError))).
Proof.
  apply (parse_start_stream_transcription_response_raises
           unit
           (fun s : string => if String.eqb s "2" then Return 2%Z else raise ValueError)
           (fun _ : string => Return true)
           (response 200 [("x-amzn-transcribe-number-of-channels", "two");
                          ("x-amzn-transcribe-sample-rate", "")])
           tt (Builtin ValueError)).
  vm_compute. reflexivity.
Defined.

Lemma parse_start_call_analytics_stream_transcription_response_raises_witness :
  (exists value,
      Response.headers (response 200 [("x-amzn-transcribe-sample-rate", "8k")])
        !! "x-amzn-transcribe-sample-rate" = Some value /\
      value <> "" /\
      (fun s : string => if String.eqb s "2" then Return 2%Z else raise ValueError) value
        = Raise (Builtin ValueError)) \/
  (exists value,
      Response.headers (response 200 [("x-amzn-transcribe-sample-rate", "8k")])
        !! "x-amzn-transcribe-enable-partial-results-stabilization" = Some value /\
      (fun _ : string => Return true) value = Raise (Builtin ValueError)).
Proof.
  apply (parse_start_call_analytics_stream_transcription_response_raises
           unit
           (fun s : string => if String.eqb s "2" then Return 2%Z else raise ValueError)
           (fun _ : string => Return true)
           (response 200 [("x-amzn-transcribe-sample-rate", "8k")])
           tt (Builtin ValueError)).
  vm_compute. reflexivity.
Defined.

(** ** Payloads and bodies that are JSON and no object *)

Section not_an_object.

Variable loads : bytes -> result pyobj.

(** X18.  An "error" or "exception" frame whose [:exception-type] is a
    string or is absent and whose payload decodes to a JSON value that is
    not an object (null, a number, a string, a list): [parse] raises
    [AttributeError], whatever the exception type. *)
Theorem parse_exception_frame_not_object (raw_event : RawEvent.t) raw_body :
  RawEvent.headers raw_event !! ":message-type" = Some (HString "error") \/
  RawEvent.headers raw_event !! ":message-type" = Some (HString "exception") ->
  RawEvent.headers raw_event !! ":exception-type" = None \/
  (exists name, RawEvent.headers raw_event !! ":exception-type" = Some (HString name)) ->
  loads (RawEvent.payload raw_event) = Return raw_body ->
  is_object raw_body = false ->
  parse loads raw_event = raise AttributeError.
Proof.
  intros Hmsg Htype Hbody Hobject. rewrite (parse_raises loads raw_event Hmsg).
  unfold _parse_event_exception.
  assert (exists name,
            default (HString "ServiceException")
                    (RawEvent.headers raw_event !! ":exception-type") = HString name)
    as (name & ->).
  { destruct Htype as [-> | (name & ->)]; by eexists. }
  unfold getattr_exceptions. rewrite Hbody.
  destruct (dict.lookup exceptions name); cbn [mbind result_bind];
    by destruct raw_body.
Qed.

(** X19.  A body that decodes to [null], to a number or to a boolean makes
    [parse_exception] raise [TypeError], and an error of [json.loads] other
    than [JSONDecodeError] is raised by [parse_exception], whatever the
    response. *)
Theorem parse_exception_body_raises (http_response : Response.t) body_bytes :
  (forall parsed_body,
      loads body_bytes = Return parsed_body ->
      iter parsed_body = raise TypeError ->
      parse_exception loads http_response body_bytes = raise TypeError) /\
  (forall e,
      loads body_bytes = Raise e ->
      except_JSONDecodeError e = false ->
      parse_exception loads http_response body_bytes = Raise e).
Proof.
  split.
  - intros parsed_body Hbody Hiter. apply parse_exception_message_raises.
    by apply (_get_error_message_not_iterable loads body_bytes parsed_body).
  - intros e Hbody He. apply parse_exception_message_raises.
    unfold _get_error_message. by rewrite Hbody, He.
Qed.

End not_an_object.

Lemma parse_exception_frame_not_object_witness :
  parse json.loads
        (frame [(":message-type", HString "error")] "['Message', 'text']")
  = raise AttributeError.
Proof.
  apply (parse_exception_frame_not_object json.loads
           (frame [(":message-type", HString "error")] "['Message', 'text']")
           (PyList [PyStr "Message"; PyStr "text"])).
  - left. reflexivity.
  - left. reflexivity.
  - vm_compute. reflexivity.
  - reflexivity.
Defined.

Lemma parse_exception_body_raises_witness :
  parse_exception json.loads (response 400 [("x-amzn-errortype", "BadRequestException")])
                  (json.text "false")
  = raise TypeError.
Proof.
  apply (proj1 (parse_exception_body_raises json.loads
                  (response 400 [("x-amzn-errortype", "BadRequestException")])
                  (json.text "false")) (PyBool false)).
  - vm_compute. reflexivity.
  - reflexivity.
Defined.
